(** * Press-n-Go: a shallow embedding of [main.go] and its properties.

    The development follows the source file top-down: the structs, the
    operating-system and library calls the handlers rely on (modelled as
    explicit state passing over a [World]), then the middleware, the
    handlers and [createPageFile], and finally the properties of the
    publish pipeline. *)

From Stdlib Require Import ZArith NArith String Ascii List Permutation.
From Stdlib.Strings Require Import Byte.
From stdpp Require Import gmap strings list fin_maps sorting.

Local Open Scope string_scope.
Local Open Scope Z_scope.

(** ** Go strings

    A Go [string] is a sequence of bytes; [String.string] is a sequence of
    8-bit [ascii] characters, so the two coincide. *)

Module GoStrings.

(** [strings.Contains(s, substr)]. *)
Fixpoint Contains (s substr : string) : bool :=
  String.prefix substr s ||
  match s with
  | EmptyString => false
  | String _ s' => Contains s' substr
  end.

(** The pieces of [s] between the separators ['/']; never empty. *)
Fixpoint split_slash (s : string) : list string :=
  match s with
  | EmptyString => [EmptyString]
  | String c s' =>
      if Ascii.eqb c "/" then EmptyString :: split_slash s'
      else match split_slash s' with
           | h :: t => String c h :: t
           | [] => [String c EmptyString]
           end
  end.

(** The double quote and the line feed, for the literals of the source
    that contain them. *)
Definition dq : string := String (ascii_of_nat 34) EmptyString.
Definition nl : string := String (ascii_of_nat 10) EmptyString.

(** [fmt.Sprintf] restricted to the verbs the source uses: [%s] takes the
    next operand, [%%] is a percent sign, every other byte is copied.  A
    [%s] with no operand left prints Go's [%!s(MISSING)]; the source never
    passes more operands than verbs. *)
Fixpoint Sprintf (format : string) (args : list string) : string :=
  match format with
  | String "%" (String "s" rest) =>
      match args with
      | a :: args' => a +:+ Sprintf rest args'
      | [] => "%!s(MISSING)" +:+ Sprintf rest []
      end
  | String "%" (String "%" rest) => String "%" (Sprintf rest args)
  | String c rest => String c (Sprintf rest args)
  | EmptyString => EmptyString
  end.

End GoStrings.

(** ** [encoding/hex] *)

Module Hex.

Definition hextable : string := "0123456789abcdef".

(** [hextable[i]]; the index is always below 16 where it is used. *)
Definition hexdigit (i : N) : ascii :=
  match String.get (N.to_nat i) hextable with
  | Some c => c
  | None => "0"%char
  end.

(** [hex.EncodeToString]: two digits per byte, high nibble first
    ([hextable[v>>4]], [hextable[v&0x0f]]). *)
Fixpoint EncodeToString (src : list byte) : string :=
  match src with
  | [] => EmptyString
  | v :: src' =>
      String (hexdigit (N.shiftr (Byte.to_N v) 4))
        (String (hexdigit (N.land (Byte.to_N v) 15)) (EncodeToString src'))
  end.

(** [fromHexChar] of [encoding/hex]. *)
Definition fromHexChar (c : ascii) : option N :=
  let n := N_of_ascii c in
  if ((48 <=? n) && (n <=? 57))%N then Some (n - 48)%N
  else if ((97 <=? n) && (n <=? 102))%N then Some (n - 97 + 10)%N
  else if ((65 <=? n) && (n <=? 70))%N then Some (n - 65 + 10)%N
  else None.

(** [hex.DecodeString]: fails on an odd length or a byte that is not a
    hexadecimal digit. *)
Fixpoint DecodeString (s : string) : option (list byte) :=
  match s with
  | EmptyString => Some []
  | String a (String b rest) =>
      match fromHexChar a, fromHexChar b, DecodeString rest with
      | Some hi, Some lo, Some bs =>
          match Byte.of_N (N.lor (N.shiftl hi 4) lo) with
          | Some v => Some (v :: bs)
          | None => None
          end
      | _, _, _ => None
      end
  | String _ EmptyString => None
  end.

(** A lowercase hexadecimal digit. *)
Definition is_lower_hex (c : ascii) : bool :=
  let n := N_of_ascii c in
  ((48 <=? n) && (n <=? 57) || (97 <=? n) && (n <=? 102))%N.

End Hex.

(** ** [path/filepath]

    Paths are Go strings.  The process never changes its working directory
    and every path it builds starts with the literal ["public"]. *)

Module Filepath.
Import GoStrings.

(** The core of [filepath.Clean], on the pieces of the path between its
    separators: empty and [.] pieces disappear, [..] removes the piece
    before it; a [..] with nothing before it stays in a relative path and
    disappears in a rooted one.  [out] is the cleaned prefix, last piece
    first. *)
Fixpoint clean_from (rooted : bool) (comps out : list string) : list string :=
  match comps with
  | [] => rev out
  | c :: comps' =>
      if String.eqb c "" || String.eqb c "." then clean_from rooted comps' out
      else if String.eqb c ".." then
        match out with
        | o :: out' =>
            if String.eqb o ".." then clean_from rooted comps' (c :: out)
            else clean_from rooted comps' out'
        | [] => if rooted then clean_from rooted comps' []
                else clean_from rooted comps' [c]
        end
      else clean_from rooted comps' (c :: out)
  end.

(** [filepath.Clean]: the shortest path equivalent to [p] by purely
    lexical processing; the empty result is [.]. *)
Definition Clean (p : string) : string :=
  let rooted := String.prefix "/" p in
  let body := String.concat "/" (clean_from rooted (split_slash p) []) in
  let out := if rooted then "/" +:+ body else body in
  if String.eqb out "" then "." else out.

(** [filepath.Join(elem...)]: leading empty elements are ignored, the rest
    are joined by ['/'] and the result is cleaned; no element left gives
    the empty string. *)
Fixpoint Join (elem : list string) : string :=
  match elem with
  | [] => ""
  | e :: elem' =>
      if String.eqb e "" then Join elem'
      else Clean (String.concat "/" elem)
  end.

(** The names the kernel walks through when it resolves [p] from the
    working directory.  A [..] that [Clean] has left at the front is looked
    up like any name and not found: the tree holds nothing above the
    working directory. *)
Definition components (p : string) : list string :=
  filter (λ c, c ≠ "" ∧ c ≠ ".") (split_slash p).

End Filepath.

(** ** Errors

    [errno] is the error number of a failed system call; [error] is a Go
    [error] value as the program builds and inspects it. *)

Inductive errno : Set :=
  ENOENT | ENOTDIR | EISDIR | EACCES | ENOSPC | EIO | EINVAL | ENAMETOOLONG.

Inductive error : Type :=
| PathError (op : string) (name : string) (e : errno)
| Wrapped (msg : string) (inner : error)
| LibError (msg : string).

Inductive result (A : Type) : Type :=
| Ok (a : A)
| Err (e : error).
Arguments Ok {A} a.
Arguments Err {A} e.

(** [os.IsNotExist(err)], where [err] is the second component of a call's
    return: true exactly for a [*PathError] that carries [ENOENT]. *)
Definition IsNotExist {A : Type} (r : result A) : bool :=
  match r with
  | Err (PathError _ _ ENOENT) => true
  | _ => false
  end.

(** ** The file tree under the working directory *)

#[warnings="-register-all"]
Inductive node : Type :=
| File (data : string) (mtime : Z)
| Dir (entries : gmap string node) (mtime : Z).

Definition node_isDir (n : node) : bool :=
  match n with Dir _ _ => true | File _ _ => false end.

Definition node_mtime (n : node) : Z :=
  match n with Dir _ t => t | File _ t => t end.

Module Tree.

(** Path resolution, one name at a time. *)
Fixpoint resolve (names : list string) (n : node) : errno + node :=
  match names with
  | [] => inr n
  | c :: names' =>
      match n with
      | File _ _ => inl ENOTDIR
      | Dir entries _ =>
          match entries !! c with
          | None => inl ENOENT
          | Some m => resolve names' m
          end
      end
  end.

(** [mkdir -p]: existing directories are kept, missing ones are created
    (which touches the directory they are created in); a regular file on
    the way is [ENOTDIR]. *)
Fixpoint mkdirAll (t : Z) (names : list string) (n : node) : errno + node :=
  match n with
  | File _ _ => inl ENOTDIR
  | Dir entries mt =>
      match names with
      | [] => inr n
      | c :: names' =>
          match entries !! c with
          | Some m =>
              match mkdirAll t names' m with
              | inr m' => inr (Dir (<[c := m']> entries) mt)
              | inl e => inl e
              end
          | None =>
              match mkdirAll t names' (Dir ∅ t) with
              | inr m' => inr (Dir (<[c := m']> entries) t)
              | inl e => inl e
              end
          end
      end
  end.

(** The names down to the first entry on the way that is not a directory:
    the path [os.MkdirAll] reports when it fails with [ENOTDIR]. *)
Fixpoint obstacle (names : list string) (n : node) : list string :=
  match n, names with
  | Dir entries _, c :: names' =>
      match entries !! c with
      | Some m => c :: obstacle names' m
      | None => []
      end
  | _, _ => []
  end.

(** Open with [O_WRONLY|O_CREATE|O_TRUNC], write, close. *)
Fixpoint writeFile (t : Z) (names : list string) (data : string) (n : node)
  : errno + node :=
  match names with
  | [] =>
      match n with
      | File _ _ => inr (File data t)
      | Dir _ _ => inl EISDIR
      end
  | c :: names' =>
      match n with
      | File _ _ => inl ENOTDIR
      | Dir entries mt =>
          match entries !! c with
          | Some m =>
              match writeFile t names' data m with
              | inr m' => inr (Dir (<[c := m']> entries) mt)
              | inl e => inl e
              end
          | None =>
              match names' with
              | [] => inr (Dir (<[c := File data t]> entries) t)
              | _ :: _ => inl ENOENT
              end
          end
      end
  end.

(** [rm -rf]: the entry and everything below it go; a path that does not
    exist is not an error.  The handlers never remove the working
    directory itself (no names), which is left as it is. *)
Fixpoint removeAll (t : Z) (names : list string) (n : node) : errno + node :=
  match names with
  | [] => inr n
  | c :: names' =>
      match n with
      | File _ _ => inl ENOTDIR
      | Dir entries mt =>
          match entries !! c with
          | None => inr n
          | Some m =>
              match names' with
              | [] => inr (Dir (delete c entries) t)
              | _ :: _ =>
                  match removeAll t names' m with
                  | inr m' => inr (Dir (<[c := m']> entries) mt)
                  | inl e => inl e
                  end
              end
          end
      end
  end.

End Tree.

(** ** The world a request runs in *)

Inductive syscall : Type :=
| SysStat (name : string)
| SysLstat (name : string)
| SysOpen (name : string)
| SysReadDir (name : string)
| SysMkdirAll (name : string)
| SysWriteFile (name : string)
| SysRemoveAll (name : string)
| SysGetRandom.

(** Lines written by [log.Printf]. *)
Inductive log_line : Type :=
| LogReadDirError (e : error)
| LogInfoError (name : string) (e : error)
| LogDeleteError (folder : string) (e : error).

(** The path a system call is about, if it has one. *)
Definition syscall_name (sc : syscall) : option string :=
  match sc with
  | SysStat name | SysLstat name | SysOpen name | SysReadDir name
  | SysMkdirAll name | SysWriteFile name | SysRemoveAll name => Some name
  | SysGetRandom => None
  end.

(** The limits of Linux on file names. *)
Definition NAME_MAX : nat := 255.
Definition PATH_MAX : nat := 4096.

(** What is refused for the name alone, whatever the tree holds: Go's
    [syscall] package answers [EINVAL] to a path with a NUL byte in it, and
    the kernel answers [ENAMETOOLONG] to a path of [PATH_MAX] bytes or more
    and to one with a piece of more than [NAME_MAX] bytes. *)
Definition name_errno (name : string) : option errno :=
  if GoStrings.Contains name (String Ascii.zero EmptyString) then Some EINVAL
  else if (PATH_MAX <=? String.length name)%nat then Some ENAMETOOLONG
  else if existsb (λ piece, (NAME_MAX <? String.length piece)%nat)
            (GoStrings.split_slash name)
  then Some ENAMETOOLONG
  else None.

(** [cwd] is the tree under the working directory, [now] the clock,
    [entropy] the stream [crypto/rand] reads from and [drawn] how much of it
    has been read.  [veto] is what the environment refuses: a permission, a
    full disk, an entry another request removed in the meantime. *)
Record World : Type := mkWorld {
  cwd : node;
  now : Z;
  entropy : nat → byte;
  drawn : nat;
  veto : syscall → option errno;
  logged : list log_line
}.

(** Why a call fails before it changes anything, if it does: its name is
    refused, or the environment refuses the call. *)
Definition fault (w : World) (sc : syscall) : option errno :=
  match syscall_name sc with
  | Some name =>
      match name_errno name with
      | Some e => Some e
      | None => veto w sc
      end
  | None => veto w sc
  end.

Definition set_cwd (n : node) (w : World) : World :=
  mkWorld n (now w) (entropy w) (drawn w) (veto w) (logged w).

Definition M (A : Type) : Type := World → A * World.

Definition ret {A : Type} (a : A) : M A := λ w, (a, w).

Definition bind {A B : Type} (m : M A) (k : A → M B) : M B :=
  λ w, let (a, w') := m w in k a w'.

Notation "'let*' x ':=' m 'in' k" := (bind m (λ x, k))
  (at level 10, x pattern, m at level 100, k at level 200, only parsing).
Notation "'exec' m 'in' k" := (bind m (λ _, k))
  (at level 10, m at level 100, k at level 200, only parsing).

Module OS.
Import Filepath.

Record FileInfo : Type := mkFileInfo { IsDir : bool; ModTime : Z }.

Definition info_of (n : node) : FileInfo :=
  mkFileInfo (node_isDir n) (node_mtime n).

(** A read-only call: vetoed by the environment, or answered from the
    tree. *)
Definition query {A : Type} (sc : syscall) (op name : string)
    (f : node → errno + A) : M (result A) :=
  λ w,
    match fault w sc with
    | Some e => (Err (PathError op name e), w)
    | None =>
        match f (cwd w) with
        | inr a => (Ok a, w)
        | inl e => (Err (PathError op name e), w)
        end
    end.

(** A call that changes the tree; its Go result is just the [error]. *)
Definition update (sc : syscall) (op name : string)
    (f : Z → node → errno + node) : M (option error) :=
  λ w,
    match fault w sc with
    | Some e => (Some (PathError op name e), w)
    | None =>
        match f (now w) (cwd w) with
        | inr n' => (None, set_cwd n' w)
        | inl e => (Some (PathError op name e), w)
        end
    end.

(** [os.Stat]. *)
Definition Stat (name : string) : M (result FileInfo) :=
  query (SysStat name) "stat" name
    (λ n, match Tree.resolve (components name) n with
          | inr m => inr (info_of m)
          | inl e => inl e
          end).

(** [os.MkdirAll].  A refused call reports the path it was given; an entry
    on the way that is not a directory is reported under its own path. *)
Definition MkdirAll (name : string) : M (option error) :=
  λ w,
    match fault w (SysMkdirAll name) with
    | Some e => (Some (PathError "mkdir" name e), w)
    | None =>
        match Tree.mkdirAll (now w) (components name) (cwd w) with
        | inr n' => (None, set_cwd n' w)
        | inl e =>
            (Some (PathError "mkdir"
                     (String.concat "/"
                        (Tree.obstacle (components name) (cwd w))) e), w)
        end
    end.

(** [os.WriteFile]. *)
Definition WriteFile (name : string) (data : string) : M (option error) :=
  update (SysWriteFile name) "open" name
    (λ t, Tree.writeFile t (components name) data).

(** [os.RemoveAll], as far as it either removes the whole entry or is
    refused before it starts; a removal that fails half-way, with part of
    the entry already gone, is not described. *)
Definition RemoveAll (name : string) : M (option error) :=
  update (SysRemoveAll name) "unlinkat" name
    (λ t, Tree.removeAll t (components name)).

(** An [os.DirEntry] as [os.ReadDir] returns it: the name and the type
    read from the directory; [Info] looks the entry up again. *)
Record DirEntry : Type := mkDirEntry {
  parent : string;
  Name : string;
  entry_IsDir : bool
}.

(** [os.ReadDir]: all entries of the directory, sorted by file name. *)
Definition ReadDir (name : string) : M (result (list DirEntry)) :=
  query (SysReadDir name) "open" name
    (λ n, match Tree.resolve (components name) n with
          | inr (Dir entries _) =>
              inr (map (λ kv, mkDirEntry name kv.1 (node_isDir kv.2))
                     (merge_sort (λ a b, String.leb a.1 b.1)
                        (map_to_list entries)))
          | inr (File _ _) => inl ENOTDIR
          | inl e => inl e
          end).

(** [DirEntry.Info]: an [lstat] of the entry at the time of the call. *)
Definition Info (d : DirEntry) : M (result FileInfo) :=
  let name := parent d +:+ "/" +:+ Name d in
  query (SysLstat name) "lstat" name
    (λ n, match Tree.resolve (components name) n with
          | inr m => inr (info_of m)
          | inl e => inl e
          end).

(** [crypto/rand.Read] into a buffer of [n] bytes: the buffer is filled
    entirely or the call fails.  (From Go 1.24 on a failing source ends the
    process instead of returning; the error branch then never runs.) *)
Definition rand_Read (n : nat) : M (result (list byte)) :=
  λ w,
    match fault w SysGetRandom with
    | Some e => (Err (PathError "read" "/dev/urandom" e), w)
    | None =>
        (Ok (map (entropy w) (seq (drawn w) n)),
         mkWorld (cwd w) (now w) (entropy w) (drawn w + n)%nat (veto w)
           (logged w))
    end.

(** [log.Printf]. *)
Definition log_Printf (l : log_line) : M unit :=
  λ w, (tt, mkWorld (cwd w) (now w) (entropy w) (drawn w) (veto w)
              (logged w ++ [l])%list).

End OS.

(** ** Rendering of errors: [err.Error()] *)

Definition errno_message (e : errno) : string :=
  match e with
  | ENOENT => "no such file or directory"
  | ENOTDIR => "not a directory"
  | EISDIR => "is a directory"
  | EACCES => "permission denied"
  | ENOSPC => "no space left on device"
  | EIO => "input/output error"
  | EINVAL => "invalid argument"
  | ENAMETOOLONG => "file name too long"
  end.

Fixpoint Error (err : error) : string :=
  match err with
  | PathError op name e => op +:+ " " +:+ name +:+ ": " +:+ errno_message e
  | Wrapped msg inner => msg +:+ ": " +:+ Error inner
  | LibError msg => msg
  end.

(** [fmt.Errorf("<msg>: %w", err)]. *)
Definition Errorf (msg : string) (err : error) : error := Wrapped msg err.

(** ** Structs *)

Record Config : Type := mkConfig {
  Username : string;
  Password : string
}.

Record UploadRequest : Type := mkUploadRequest {
  Content : string;
  Type' : string;
  ThemeCSS : string
}.

Record Page : Type := mkPage {
  ID : string;
  CreatedAt : Z
}.

(** ** The part of gin and [net/http] the handlers use *)

Module Gin.

(** What a handler reads from its [*gin.Context]: the cookies and route
    parameters of the request, and its body as [encoding/json] decodes it
    into an [UploadRequest] (an absent field is the empty string; a body
    that does not decode is an error). *)
Record Context : Type := mkContext {
  cookies : gmap string string;
  params : gmap string string;
  json_body : result UploadRequest
}.

(** What a handler answers with: [c.JSON] of one of the four shapes the
    handlers send, [c.HTML], [c.Redirect], a file sent as an attachment, or
    [http.Error(w, msg, code)] of [net/http], which sends [msg] and a line
    feed as plain text. *)
Inductive Body : Type :=
| JSON_error (msg : string)
| JSON_url (url : string)
| JSON_message (msg : string)
| JSON_pages (pages : list Page)
| HTML (name : string)
| Redirect (location : string)
| Attachment (filename : string) (data : string)
| Text (msg : string).

Record Response : Type := mkResponse {
  status : Z;
  body : Body
}.

Definition HandlerFunc : Type := Context → M Response.

(** [c.Param(key)]: the empty string when the route has no such
    parameter. *)
Definition Param (c : Context) (key : string) : string :=
  default "" (params c !! key).

(** [c.Cookie(name)]: [http.ErrNoCookie] when the request has none.  The
    value is kept as the request carries it, already unescaped. *)
Definition Cookie (c : Context) (name : string) : result string :=
  match cookies c !! name with
  | Some v => Ok v
  | None => Err (LibError "http: named cookie not present")
  end.

(** The [binding:"required"] tag: the field must not be the zero value of
    its type, which for a string is the empty string. *)
Definition required (field value : string) : list string :=
  if String.eqb value "" then [field] else [].

Definition validation_message (field : string) : string :=
  "Key: 'UploadRequest." +:+ field +:+ "' Error:Field validation for '"
    +:+ field +:+ "' failed on the 'required' tag".

(** [c.ShouldBindJSON(&req)] for an [UploadRequest]: decode, then check
    the binding tags of the struct ([Content] and [Type] are required,
    [ThemeCSS] is not). *)
Definition ShouldBindJSON (c : Context) : result UploadRequest :=
  match json_body c with
  | Err e => Err e
  | Ok req =>
      match (required "Content" (Content req)
             ++ required "Type" (Type' req))%list with
      | [] => Ok req
      | failed =>
          Err (LibError (String.concat GoStrings.nl
                           (map validation_message failed)))
      end
  end.

(** [http.ServeFile] through [c.FileAttachment(filepath, filename)]: a
    regular file is sent whole with a [Content-Disposition: attachment]
    header (requests for a range or under a condition are not described);
    a directory is answered with the redirect of [net/http] to the same
    path with a slash; a file that cannot be opened becomes 404, 403 or 500,
    where a path that runs through a regular file counts as not found. *)
Definition FileAttachment (filepath filename : string) : M Response :=
  λ w,
    match fault w (SysOpen filepath) with
    | Some ENOENT => (mkResponse 404 (Text "404 page not found"), w)
    | Some EACCES => (mkResponse 403 (Text "403 Forbidden"), w)
    | Some _ => (mkResponse 500 (Text "500 Internal Server Error"), w)
    | None =>
        match Tree.resolve (Filepath.components filepath) (cwd w) with
        | inr (File data _) => (mkResponse 200 (Attachment filename data), w)
        | inr (Dir _ _) => (mkResponse 301 (Redirect "source/"), w)
        | inl ENOENT | inl ENOTDIR =>
            (mkResponse 404 (Text "404 page not found"), w)
        | inl EACCES => (mkResponse 403 (Text "403 Forbidden"), w)
        | inl _ => (mkResponse 500 (Text "500 Internal Server Error"), w)
        end
    end.

End Gin.

(** ** The service

    [appConfig] is filled once by [LoadConfig] and read afterwards;
    [cookieHandler.Decode] (securecookie) and [md.Convert] (goldmark) are
    library calls and stay abstract. *)

Section Service.
Import Gin.

Variable appConfig : Config.
Variable cookieHandler_Decode : string → string → result (gmap string string).
Variable md_Convert : string → result string.

Definition StatusOK : Z := 200.
Definition StatusFound : Z := 302.
Definition StatusBadRequest : Z := 400.
Definition StatusNotFound : Z := 404.
Definition StatusInternalServerError : Z := 500.

Definition isAuthenticated (c : Context) : bool :=
  match Cookie c "session" with
  | Err _ => false
  | Ok cookie =>
      match cookieHandler_Decode "session" cookie with
      | Err _ => false
      | Ok cookieValue =>
          String.eqb (default "" (cookieValue !! "authenticated")) "true"
      end
  end.

(** [c.Next()] runs the handlers behind the middleware, here [next];
    [c.Abort()] keeps them from running. *)
Definition authRequired (next : HandlerFunc) : HandlerFunc :=
  λ c,
    if String.eqb (Username appConfig) ""
       || String.eqb (Password appConfig) ""
       || isAuthenticated c
    then next c
    else ret (mkResponse StatusFound (Redirect "/login")).

Definition generatePageID : M (result string) :=
  let* r := OS.rand_Read 8 in
  match r with
  | Err err => ret (Err (Errorf "failed to generate random ID" err))
  | Ok randomBytes => ret (Ok (Hex.EncodeToString randomBytes))
  end.

Definition page_template : string :=
  let dq := GoStrings.dq in
  let nl := GoStrings.nl in
  "<!DOCTYPE html>" +:+ nl +:+
  "<html lang=" +:+ dq +:+ "en" +:+ dq +:+ ">" +:+ nl +:+
  "<head>" +:+ nl +:+
  "    <meta charset=" +:+ dq +:+ "UTF-8" +:+ dq +:+ ">" +:+ nl +:+
  "    <meta name=" +:+ dq +:+ "viewport" +:+ dq +:+ " content=" +:+ dq +:+
    "width=device-width, initial-scale=1.0" +:+ dq +:+ ">" +:+ nl +:+
  "    <title>Published Content</title>" +:+ nl +:+
  "    <style>%s</style>" +:+ nl +:+
  "</head>" +:+ nl +:+
  "<body><article class=" +:+ dq +:+ "markdown-body" +:+ dq +:+
    ">%s</article></body>" +:+ nl +:+
  "</html>".

Definition createPageFile (pageID : string) (req : UploadRequest)
  : M (option error) :=
  let folderPath := Filepath.Join ["public"; pageID] in
  let* err := OS.MkdirAll folderPath in
  match err with
  | Some err => ret (Some (Errorf "failed to create content directory" err))
  | None =>
      let rawFilePath := Filepath.Join [folderPath; "source.txt"] in
      let* err := OS.WriteFile rawFilePath (Content req) in
      match err with
      | Some err => ret (Some (Errorf "failed to write raw source file" err))
      | None =>
          let write_rendered (finalContent : string) : M (option error) :=
            let filePath := Filepath.Join [folderPath; "index.html"] in
            let* err := OS.WriteFile filePath finalContent in
            match err with
            | Some err =>
                ret (Some (Errorf "failed to write rendered html file" err))
            | None => ret None
            end in
          if String.eqb (Type' req) "markdown" then
            match md_Convert (Content req) with
            | Err err => ret (Some (Errorf "failed to convert markdown" err))
            | Ok htmlContent =>
                write_rendered
                  (GoStrings.Sprintf page_template [ThemeCSS req; htmlContent])
            end
          else write_rendered (Content req)
      end
  end.

Definition handleUpload : HandlerFunc :=
  λ c,
    match ShouldBindJSON c with
    | Err err => ret (mkResponse StatusBadRequest (JSON_error (Error err)))
    | Ok req =>
        let* r := generatePageID in
        match r with
        | Err err =>
            ret (mkResponse StatusInternalServerError (JSON_error (Error err)))
        | Ok pageID =>
            let* err := createPageFile pageID req in
            match err with
            | Some err =>
                ret (mkResponse StatusInternalServerError
                       (JSON_error (Error err)))
            | None =>
                ret (mkResponse StatusOK
                       (JSON_url (GoStrings.Sprintf "/%s/" [pageID])))
            end
        end
    end.

(** The body of the [for ... range entries] loop of [handleListPages]. *)
Fixpoint list_entries (entries : list OS.DirEntry) (discoveredPages : list Page)
  : M (list Page) :=
  match entries with
  | [] => ret discoveredPages
  | entry :: entries' =>
      if OS.entry_IsDir entry && negb (String.eqb (OS.Name entry) "index.html")
      then
        let* r := OS.Info entry in
        match r with
        | Err err =>
            exec OS.log_Printf (LogInfoError (OS.Name entry) err) in
            list_entries entries' discoveredPages
        | Ok info =>
            list_entries entries'
              (discoveredPages ++ [mkPage (OS.Name entry) (OS.ModTime info)])%list
        end
      else list_entries entries' discoveredPages
  end.

Definition handleListPages : HandlerFunc :=
  λ c,
    let* r := OS.ReadDir "public" in
    match r with
    | Err err =>
        exec OS.log_Printf (LogReadDirError err) in
        ret (mkResponse StatusInternalServerError
               (JSON_error "Could not list pages"))
    | Ok entries =>
        let* discoveredPages := list_entries entries [] in
        ret (mkResponse StatusOK (JSON_pages discoveredPages))
    end.

Definition handleDeletePage : HandlerFunc :=
  λ c,
    let pageID := Param c "id" in
    if String.eqb pageID "" || GoStrings.Contains pageID "."
       || GoStrings.Contains pageID "/"
    then ret (mkResponse StatusBadRequest (JSON_error "Invalid page ID"))
    else
      let folderPath := Filepath.Join ["public"; pageID] in
      let* st := OS.Stat folderPath in
      if IsNotExist st
      then ret (mkResponse StatusNotFound (JSON_error "Page not found"))
      else
        let* err := OS.RemoveAll folderPath in
        match err with
        | Some err =>
            exec OS.log_Printf (LogDeleteError folderPath err) in
            ret (mkResponse StatusInternalServerError
                   (JSON_error "Failed to delete page"))
        | None =>
            ret (mkResponse StatusOK (JSON_message "Page deleted successfully"))
        end.

Definition handleDownloadSource : HandlerFunc :=
  λ c,
    let pageID := Param c "id" in
    if String.eqb pageID "" || GoStrings.Contains pageID "."
       || GoStrings.Contains pageID "/"
    then ret (mkResponse StatusBadRequest (JSON_error "Invalid page ID"))
    else
      let sourcePath := Filepath.Join ["public"; pageID; "source.txt"] in
      let* st := OS.Stat sourcePath in
      if IsNotExist st
      then ret (mkResponse StatusNotFound (JSON_error "Source file not found"))
      else
        FileAttachment sourcePath (GoStrings.Sprintf "%s_source.txt" [pageID]).

End Service.

(** ** Login and logout

    These handlers read the posted form and answer with a view and,
    possibly, a [Set-Cookie] header.  They touch neither the file tree nor
    the random source of the page store. *)

Module Session.

(** A cookie as [c.SetCookie(name, value, maxAge, path, domain, secure,
    httpOnly)] sends it.  The value is kept unescaped, as [Gin.Cookie] reads
    it back. *)
Record Cookie : Type := mkCookie {
  cookie_name : string;
  cookie_value : string;
  MaxAge : Z;
  Path : string;
  Domain : string;
  Secure : bool;
  HttpOnly : bool
}.

(** [c.HTML(status, name, gin.H{"Error": msg})] ([None] for a [nil] data)
    and [c.Redirect(status, location)]. *)
Inductive View : Type :=
| Render (status : Z) (name : string) (Error : option string)
| Found (status : Z) (location : string).

Record Reply : Type := mkReply {
  set_cookies : list Cookie;
  view : View
}.

(** [c.PostForm(key)]: the empty string when the form has no such field. *)
Definition PostForm (form : gmap string string) (key : string) : string :=
  default "" (form !! key).

(** [c.SetCookie]: an empty path becomes ["/"]. *)
Definition SetCookie (name value : string) (maxAge : Z) (path domain : string)
    (secure httpOnly : bool) : Cookie :=
  mkCookie name value maxAge (if String.eqb path "" then "/" else path)
    domain secure httpOnly.

End Session.

Section SessionHandlers.
Import Session.

Variable appConfig : Config.
Variable cookieHandler_Encode : string → gmap string string → result string.

Definition StatusUnauthorized : Z := 401.

Definition showLoginPage : Reply :=
  mkReply [] (Render 200 "login.html" None).

(** The error it returns, and the cookies it has set. *)
Definition createSession : option error * list Cookie :=
  let value : gmap string string := {["authenticated" := "true"]} in
  match cookieHandler_Encode "session" value with
  | Err err => (Some err, [])
  | Ok encoded =>
      (None, [SetCookie "session" encoded (3600 * 24) "/" "" false true])
  end.

Definition handleLogin (form : gmap string string) : Reply :=
  let username := PostForm form "username" in
  let password := PostForm form "password" in
  if String.eqb username (Username appConfig)
     && String.eqb password (Password appConfig)
  then
    match createSession with
    | (Some err, cookies) =>
        mkReply cookies
          (Render 500 "login.html" (Some "Failed to create session"))
    | (None, cookies) => mkReply cookies (Found 302 "/")
    end
  else
    mkReply []
      (Render StatusUnauthorized "login.html"
         (Some "Invalid username or password")).

Definition handleLogout : Reply :=
  mkReply [SetCookie "session" "" (-1) "/" "" false true]
    (Found 302 "/login").

End SessionHandlers.

(** * Vocabulary of the properties *)

(** A page identifier the handlers accept: not empty, no ['.'], no ['/']. *)
Definition valid_page_id (pageID : string) : bool :=
  negb (String.eqb pageID "" || GoStrings.Contains pageID "."
        || GoStrings.Contains pageID "/").

(** A name that [Clean] leaves alone and that has no separator in it. *)
Definition plain_name (f : string) : Prop :=
  f ≠ "" ∧ f ≠ "." ∧ f ≠ ".." ∧ GoStrings.Contains f "/" = false.

Fixpoint string_forall (P : ascii → bool) (s : string) : bool :=
  match s with
  | EmptyString => true
  | String c s' => P c && string_forall P s'
  end.

(** The answer of the gate to a caller it turns away. *)
Definition login_redirect : Gin.Response :=
  Gin.mkResponse 302 (Gin.Redirect "/login").

(** The gate as the specification words it: open when both credentials are
    empty or the session token validates. *)
Definition spec_gate_open (appConfig : Config)
    (Decode : string → string → result (gmap string string))
    (c : Gin.Context) : Prop :=
  (Username appConfig = "" ∧ Password appConfig = "")
  ∨ isAuthenticated Decode c = true.

(** The gate as [authRequired] evaluates it. *)
Definition gate_open (appConfig : Config)
    (Decode : string → string → result (gmap string string))
    (c : Gin.Context) : Prop :=
  Username appConfig = "" ∨ Password appConfig = ""
  ∨ isAuthenticated Decode c = true.

(** Where the two files of a page are. *)
Definition source_path (pageID : string) : string :=
  "public/" +:+ pageID +:+ "/source.txt".

Definition index_path (pageID : string) : string :=
  "public/" +:+ pageID +:+ "/index.html".

(** The last step of [createPageFile]: the rendered file. *)
Definition write_rendered (pageID finalContent : string) (w : World)
  : option error * World :=
  match OS.WriteFile (index_path pageID) finalContent w with
  | (Some err, w3) =>
      (Some (Errorf "failed to write rendered html file" err), w3)
  | (None, w3) => (None, w3)
  end.

(** The pieces of the document around the two operands of
    [page_template]. *)
Definition doc_head : string :=
  let dq := GoStrings.dq in
  let nl := GoStrings.nl in
  "<!DOCTYPE html>" +:+ nl +:+
  "<html lang=" +:+ dq +:+ "en" +:+ dq +:+ ">" +:+ nl +:+
  "<head>" +:+ nl +:+
  "    <meta charset=" +:+ dq +:+ "UTF-8" +:+ dq +:+ ">" +:+ nl +:+
  "    <meta name=" +:+ dq +:+ "viewport" +:+ dq +:+ " content=" +:+ dq +:+
    "width=device-width, initial-scale=1.0" +:+ dq +:+ ">" +:+ nl +:+
  "    <title>Published Content</title>" +:+ nl +:+
  "    ".

Definition doc_mid : string :=
  GoStrings.nl +:+ "</head>" +:+ GoStrings.nl +:+ "<body>".

Definition article_open : string :=
  "<article class=" +:+ GoStrings.dq +:+ "markdown-body" +:+ GoStrings.dq
    +:+ ">".

Definition doc_tail : string := "</body>" +:+ GoStrings.nl +:+ "</html>".

(** The same upload with its [type] replaced by ["html"]. *)
Definition as_html (req : UploadRequest) : UploadRequest :=
  mkUploadRequest (Content req) "html" (ThemeCSS req).

Definition with_body (c : Gin.Context) (req : UploadRequest) : Gin.Context :=
  Gin.mkContext (Gin.cookies c) (Gin.params c) (Ok req).

(** Concrete inputs on which the properties below are exercised. *)
Module Example.

Definition random_byte (n : nat) : byte :=
  match Byte.of_nat ((37 * n + 11) mod 256) with
  | Some b => b
  | None => Byte.x00
  end.

Definition no_fault : syscall → option errno := λ _, None.

(** An empty storage root. *)
Definition tree : node := Dir (<["public" := Dir ∅ 5]> ∅) 1.

Definition world : World := mkWorld tree 10 random_byte 0 no_fault [].

(** A token is accepted only if it is ["good"]. *)
Definition Decode (name value : string) : result (gmap string string) :=
  if String.eqb value "good" then Ok (<["authenticated" := "true"]> ∅)
  else Err (LibError "securecookie: the value is not valid").

Definition Convert (source : string) : result string :=
  Ok ("<p>" +:+ source +:+ "</p>").

(** A converter that fails. *)
Definition Convert_fails (source : string) : result string :=
  Err (LibError "write failed").

Definition upload (type content css : string) : Gin.Context :=
  Gin.mkContext ∅ ∅ (Ok (mkUploadRequest content type css)).

Definition request_for (pageID : string) : Gin.Context :=
  Gin.mkContext ∅ (<["id" := pageID]> ∅) (Err (LibError "EOF")).

Definition anonymous : Gin.Context :=
  Gin.mkContext ∅ ∅ (Err (LibError "EOF")).

(** A storage root that holds one page and one regular file. *)
Definition tree_with_file : node :=
  Dir (<["public" :=
          Dir (<["notes" := File "remember" 3]>
                 (<["0b30557a9fc4e90e" :=
                     Dir (<["source.txt" := File "<b>hi</b>" 4]>
                            (<["index.html" := File "<b>hi</b>" 4]> ∅)) 4]>
                    ∅)) 5]> ∅) 1.

Definition world_with_file : World :=
  mkWorld tree_with_file 10 random_byte 0 no_fault [].

(** The disk is full for one file: writing it is refused. *)
Definition disk_full_for (file : string) (sc : syscall) : option errno :=
  match sc with
  | SysWriteFile name => if String.eqb name file then Some ENOSPC else None
  | _ => None
  end.

Definition world_disk_full_for (file : string) : World :=
  mkWorld tree 10 random_byte 0 (disk_full_for file) [].

(** A storage root with two pages, a plain file and a directory that is
    named like the sentinel. *)
Definition listing_entries : gmap string node :=
  <["notes" := File "remember" 3]>
    (<["index.html" := Dir ∅ 2]>
       (<["aaaaaaaaaaaaaaaa" := Dir ∅ 6]>
          (<["0b30557a9fc4e90e" :=
              Dir (<["source.txt" := File "<b>hi</b>" 4]>
                     (<["index.html" := File "<b>hi</b>" 4]> ∅)) 4]> ∅))).

Definition tree_listing : node := Dir (<["public" := Dir listing_entries 7]> ∅) 1.

(** An entry of the storage root vanishes before it is examined. *)
Definition vanished (entry : string) (sc : syscall) : option errno :=
  match sc with
  | SysLstat name => if String.eqb name entry then Some ENOENT else None
  | _ => None
  end.

(** The second page is removed by another request while the listing
    runs. *)
Definition world_listing : World :=
  mkWorld tree_listing 10 random_byte 0
    (vanished "public/aaaaaaaaaaaaaaaa") [].

End Example.

(** What one turn of the loop of [handleListPages] contributes: a page, or
    a line in the log, or nothing. *)
Definition entry_page (w : World) (entry : OS.DirEntry) : option Page :=
  if OS.entry_IsDir entry && negb (String.eqb (OS.Name entry) "index.html")
  then match (OS.Info entry w).1 with
       | Ok info => Some (mkPage (OS.Name entry) (OS.ModTime info))
       | Err _ => None
       end
  else None.

Definition entry_log (w : World) (entry : OS.DirEntry) : option log_line :=
  if OS.entry_IsDir entry && negb (String.eqb (OS.Name entry) "index.html")
  then match (OS.Info entry w).1 with
       | Ok _ => None
       | Err err => Some (LogInfoError (OS.Name entry) err)
       end
  else None.

Definition add_logs (lines : list log_line) (w : World) : World :=
  mkWorld (cwd w) (now w) (entropy w) (drawn w) (veto w)
    (logged w ++ lines)%list.

(** Names of directory entries have no separator in them and are none of
    the empty name, [.] and [..]. *)
Definition wf_names (entries : gmap string node) : Prop :=
  ∀ name, is_Some (entries !! name) → plain_name name.

(** [wf_names], decided. *)
Definition plain_nameb (f : string) : bool :=
  negb (String.eqb f "" || String.eqb f "." || String.eqb f ".."
        || GoStrings.Contains f "/").

Definition wf_namesb (entries : gmap string node) : bool :=
  forallb plain_nameb (map fst (map_to_list entries)).

(** The entries of a directory in the order [os.ReadDir] returns them. *)
Definition sorted_entries (entries : gmap string node)
  : list (string * node) :=
  merge_sort (λ a b, String.leb a.1 b.1) (map_to_list entries).

(** The [os.DirEntry] of an entry of the storage root. *)
Definition entry_of (kv : string * node) : OS.DirEntry :=
  OS.mkDirEntry "public" kv.1 (node_isDir kv.2).



(** Two trees agree everywhere except at and below the entry [a] of the
    directory [p] of the working directory. *)
Definition same_outside (p a : string) (n n' : node) : Prop :=
  (∀ b rest, b ≠ a →
     Tree.resolve (p :: b :: rest) n' = Tree.resolve (p :: b :: rest) n)
  ∧ (∀ q rest, q ≠ p →
     Tree.resolve (q :: rest) n' = Tree.resolve (q :: rest) n).

(** The identifier the next call of [generatePageID] returns in [w], when
    the random source answers. *)
Definition next_page_id (w : World) : string :=
  Hex.EncodeToString (map (entropy w) (seq (drawn w) 8)).

(** The claim a session cookie carries. *)
Definition session_value : gmap string string :=
  {["authenticated" := "true"]}.

(** What [createPageFile] writes to the rendered file of an upload, when
    the conversion does not fail. *)
Definition rendered (md_Convert : string → result string)
    (req : UploadRequest) : result string :=
  if String.eqb (Type' req) "markdown" then
    match md_Convert (Content req) with
    | Ok htmlContent =>
        Ok (GoStrings.Sprintf page_template [ThemeCSS req; htmlContent])
    | Err err => Err err
    end
  else Ok (Content req).

Module ExampleSession.

Definition appConfig : Config := mkConfig "admin" "secret".

Definition Encode (name : string) (value : gmap string string)
  : result string := Ok "good".

Definition Encode_fails (name : string) (value : gmap string string)
  : result string := Err (LibError "securecookie: the value is too long").

Definition form (username password : string) : gmap string string :=
  <["username" := username]> (<["password" := password]> ∅).


(** No storage root at all. *)
Definition world_no_root : World :=
  mkWorld (Dir ∅ 1) 10 Example.random_byte 0 Example.no_fault [].

End ExampleSession.

(** * Properties *)

(** ** Strings and paths *)

Section StringFacts.
Import GoStrings.

Lemma Contains_cons (c : ascii) (s sub : string) :
  Contains (String c s) sub = false → Contains s sub = false.
Proof.
  simpl. intros H. apply orb_false_iff in H. tauto.
Qed.

Lemma Contains_char_head (c d : ascii) (s : string) :
  Contains (String c s) (String d EmptyString) = false → c ≠ d.
Proof.
  simpl. intros H Heq. subst d.
  destruct (ascii_dec c c) as [_|Hne]; [|by apply Hne].
  destruct s; discriminate H.
Qed.

Lemma split_slash_plain (s : string) :
  Contains s "/" = false → split_slash s = [s].
Proof.
  induction s as [|c s IH]; intros H; [done|].
  pose proof (Contains_char_head _ _ _ H) as Hc.
  apply Contains_cons in H. simpl. rewrite (IH H).
  by apply Ascii.eqb_neq in Hc as ->.
Qed.

Lemma split_slash_sep (a b : string) :
  Contains a "/" = false →
  split_slash (a +:+ String "/" b) = a :: split_slash b.
Proof.
  induction a as [|c a IH]; intros H; [done|].
  pose proof (Contains_char_head _ _ _ H) as Hc.
  apply Contains_cons in H. simpl. rewrite (IH H).
  by apply Ascii.eqb_neq in Hc as ->.
Qed.

Lemma valid_page_id_spec (pageID : string) :
  valid_page_id pageID = true →
  pageID ≠ "" ∧ pageID ≠ "." ∧ pageID ≠ ".."
  ∧ Contains pageID "." = false ∧ Contains pageID "/" = false.
Proof.
  unfold valid_page_id. intros H.
  apply negb_true_iff in H.
  apply orb_false_iff in H as [H Hs].
  apply orb_false_iff in H as [He Hd].
  apply String.eqb_neq in He.
  repeat split; try done; intros ->; discriminate Hd.
Qed.

End StringFacts.

Section PathFacts.
Import GoStrings Filepath.

Lemma valid_page_id_plain (pageID : string) :
  valid_page_id pageID = true → plain_name pageID.
Proof.
  intros H. apply valid_page_id_spec in H. unfold plain_name. tauto.
Qed.

Lemma plain_name_eqb (f : string) :
  plain_name f →
  String.eqb f "" = false ∧ String.eqb f "." = false
  ∧ String.eqb f ".." = false.
Proof.
  intros (H1 & H2 & H3 & _). by rewrite !String.eqb_neq.
Qed.

Lemma split_public_2 (a : string) :
  plain_name a → split_slash ("public/" +:+ a) = ["public"; a].
Proof.
  intros (_ & _ & _ & Ha).
  change ("public/" +:+ a) with ("public" +:+ String "/" a).
  rewrite split_slash_sep by reflexivity.
  by rewrite split_slash_plain.
Qed.

Lemma split_public_3 (a f : string) :
  plain_name a → plain_name f →
  split_slash ("public/" +:+ a +:+ "/" +:+ f) = ["public"; a; f].
Proof.
  intros (_ & _ & _ & Ha) (_ & _ & _ & Hf).
  change ("public/" +:+ a +:+ "/" +:+ f)
    with ("public" +:+ String "/" (a +:+ String "/" f)).
  rewrite split_slash_sep by reflexivity.
  rewrite split_slash_sep by done.
  by rewrite split_slash_plain.
Qed.

Lemma Join_public_2 (a : string) :
  plain_name a → Join ["public"; a] = "public/" +:+ a.
Proof.
  intros Ha. pose proof (plain_name_eqb _ Ha) as (E1 & E2 & E3).
  unfold Join, Clean.
  change (String.eqb "public" "") with false. cbv iota.
  change (String.concat "/" ["public"; a]) with ("public/" +:+ a).
  rewrite split_public_2 by done.
  change (String.prefix "/" ("public/" +:+ a)) with false.
  cbn [clean_from]. change (String.eqb "public" "") with false.
  change (String.eqb "public" ".") with false.
  change (String.eqb "public" "..") with false.
  cbn [orb]. cbv iota. rewrite E1, E2, E3. reflexivity.
Qed.

Lemma Join_public_3 (a f : string) :
  plain_name a → plain_name f →
  Join ["public"; a; f] = "public/" +:+ a +:+ "/" +:+ f.
Proof.
  intros Ha Hf. pose proof (plain_name_eqb _ Ha) as (E1 & E2 & E3).
  pose proof (plain_name_eqb _ Hf) as (F1 & F2 & F3).
  unfold Join, Clean.
  change (String.eqb "public" "") with false. cbv iota.
  change (String.concat "/" ["public"; a; f])
    with ("public/" +:+ a +:+ "/" +:+ f).
  rewrite split_public_3 by done.
  change (String.prefix "/" ("public/" +:+ a +:+ "/" +:+ f)) with false.
  cbn [clean_from]. change (String.eqb "public" "") with false.
  change (String.eqb "public" ".") with false.
  change (String.eqb "public" "..") with false.
  cbn [orb]. cbv iota. rewrite E1, E2, E3, F1, F2, F3. reflexivity.
Qed.

Lemma Join_folder_file (a f : string) :
  plain_name a → plain_name f →
  Join ["public/" +:+ a; f] = "public/" +:+ a +:+ "/" +:+ f.
Proof.
  intros Ha Hf. pose proof (plain_name_eqb _ Ha) as (E1 & E2 & E3).
  pose proof (plain_name_eqb _ Hf) as (F1 & F2 & F3).
  unfold Join, Clean.
  change (String.eqb ("public/" +:+ a) "") with false. cbv iota.
  change (String.concat "/" ["public/" +:+ a; f])
    with ("public/" +:+ (a +:+ "/" +:+ f)).
  change ("public/" +:+ (a +:+ "/" +:+ f))
    with ("public/" +:+ a +:+ "/" +:+ f).
  rewrite split_public_3 by done.
  change (String.prefix "/" ("public/" +:+ a +:+ "/" +:+ f)) with false.
  cbn [clean_from]. change (String.eqb "public" "") with false.
  change (String.eqb "public" ".") with false.
  change (String.eqb "public" "..") with false.
  cbn [orb]. cbv iota. rewrite E1, E2, E3, F1, F2, F3. reflexivity.
Qed.

Lemma components_public_2 (a : string) :
  plain_name a → components ("public/" +:+ a) = ["public"; a].
Proof.
  intros Ha. unfold components. rewrite split_public_2 by done.
  destruct Ha as (H1 & H2 & _).
  rewrite filter_cons_True by done.
  rewrite filter_cons_True by done. done.
Qed.

Lemma components_public_3 (a f : string) :
  plain_name a → plain_name f →
  components ("public/" +:+ a +:+ "/" +:+ f) = ["public"; a; f].
Proof.
  intros Ha Hf. unfold components. rewrite split_public_3 by done.
  destruct Ha as (H1 & H2 & _). destruct Hf as (H3 & H4 & _).
  rewrite filter_cons_True by done.
  rewrite filter_cons_True by done.
  rewrite filter_cons_True by done. done.
Qed.

Lemma plain_source_txt : plain_name "source.txt".
Proof. by repeat split. Qed.

Lemma plain_index_html : plain_name "index.html".
Proof. by repeat split. Qed.

Lemma components_source_path (a : string) :
  plain_name a →
  components (source_path a) = ["public"; a; "source.txt"].
Proof. intros Ha. exact (components_public_3 _ _ Ha plain_source_txt). Qed.

Lemma components_index_path (a : string) :
  plain_name a →
  components (index_path a) = ["public"; a; "index.html"].
Proof. intros Ha. exact (components_public_3 _ _ Ha plain_index_html). Qed.

End PathFacts.

(** ** Identifiers *)

Section HexFacts.
Import Hex.

Lemma hexdigit_high_lower (v : byte) :
  is_lower_hex (hexdigit (N.shiftr (Byte.to_N v) 4)) = true.
Proof. destruct v; reflexivity. Qed.

Lemma hexdigit_low_lower (v : byte) :
  is_lower_hex (hexdigit (N.land (Byte.to_N v) 15)) = true.
Proof. destruct v; reflexivity. Qed.

Lemma decode_byte (v : byte) :
  match fromHexChar (hexdigit (N.shiftr (Byte.to_N v) 4)),
        fromHexChar (hexdigit (N.land (Byte.to_N v) 15)) with
  | Some hi, Some lo => Byte.of_N (N.lor (N.shiftl hi 4) lo) = Some v
  | _, _ => False
  end.
Proof. destruct v; reflexivity. Qed.

Lemma EncodeToString_length (src : list byte) :
  String.length (EncodeToString src) = (2 * length src)%nat.
Proof. induction src as [|v src IH]; simpl; [done | rewrite IH; lia]. Qed.

Lemma EncodeToString_lower (src : list byte) :
  string_forall is_lower_hex (EncodeToString src) = true.
Proof.
  induction src as [|v src IH]; [done|].
  cbn [EncodeToString string_forall].
  by rewrite hexdigit_high_lower, hexdigit_low_lower, IH.
Qed.

Lemma DecodeString_EncodeToString (src : list byte) :
  DecodeString (EncodeToString src) = Some src.
Proof.
  induction src as [|v src IH]; [done|].
  cbn [EncodeToString DecodeString]. rewrite IH.
  pose proof (decode_byte v) as Hv.
  destruct (fromHexChar (hexdigit (N.shiftr (Byte.to_N v) 4))); [|done].
  destruct (fromHexChar (hexdigit (N.land (Byte.to_N v) 15))); [|done].
  by rewrite Hv.
Qed.

Lemma lower_hex_not_char (c : ascii) (s : string) :
  is_lower_hex c = false →
  string_forall is_lower_hex s = true →
  GoStrings.Contains s (String c EmptyString) = false.
Proof.
  intros Hc. induction s as [|d s IH]; [done|].
  cbn [string_forall GoStrings.Contains String.prefix].
  intros H. apply andb_true_iff in H as [Hd Hs].
  rewrite (IH Hs).
  destruct (ascii_dec c d) as [->|_]; [congruence|done].
Qed.

Lemma lower_hex_valid_page_id (s : string) :
  s ≠ "" → string_forall is_lower_hex s = true → valid_page_id s = true.
Proof.
  intros Hne Hs. unfold valid_page_id.
  apply String.eqb_neq in Hne as ->.
  by rewrite !lower_hex_not_char.
Qed.

End HexFacts.

Section IdentifierFacts.

Lemma generatePageID_ok (w : World) :
  fault w SysGetRandom = None →
  generatePageID w =
    (Ok (Hex.EncodeToString (map (entropy w) (seq (drawn w) 8))),
     mkWorld (cwd w) (now w) (entropy w) (drawn w + 8)%nat (veto w)
       (logged w)).
Proof.
  intros Hf. unfold generatePageID, bind, OS.rand_Read. by rewrite Hf.
Qed.

Lemma generatePageID_err (w : World) (e : errno) :
  fault w SysGetRandom = Some e →
  generatePageID w =
    (Err (Errorf "failed to generate random ID"
            (PathError "read" "/dev/urandom" e)), w).
Proof.
  intros Hf. unfold generatePageID, bind, OS.rand_Read. by rewrite Hf.
Qed.

Lemma generated_id_valid (bs : list byte) :
  length bs = 8%nat → valid_page_id (Hex.EncodeToString bs) = true.
Proof.
  intros Hlen. apply lower_hex_valid_page_id.
  - intros Heq. pose proof (EncodeToString_length bs) as Hl.
    rewrite Heq, Hlen in Hl. discriminate Hl.
  - apply EncodeToString_lower.
Qed.

End IdentifierFacts.

(** C5. Every successful [generatePageID] returns the 16 lowercase
    hexadecimal characters that encode the 8 bytes it read from the random
    source, and leaves the tree alone; it fails exactly when the read from
    the random source fails; and its result is the same whatever pages the
    tree already holds, so nothing is checked against them. *)
Theorem generatePageID_spec (w : World) :
  match generatePageID w with
  | (Ok pageID, w') =>
      fault w SysGetRandom = None
      ∧ ∃ randomBytes : list byte,
          randomBytes = map (entropy w) (seq (drawn w) 8)
          ∧ length randomBytes = 8%nat
          ∧ pageID = Hex.EncodeToString randomBytes
          ∧ String.length pageID = 16%nat
          ∧ string_forall Hex.is_lower_hex pageID = true
          ∧ Hex.DecodeString pageID = Some randomBytes
          ∧ cwd w' = cwd w
  | (Err _, w') => (∃ e, fault w SysGetRandom = Some e) ∧ w' = w
  end
  ∧ ∀ tree : node,
      (generatePageID (set_cwd tree w)).1 = (generatePageID w).1.
Proof.
  split.
  - destruct (fault w SysGetRandom) as [e|] eqn:Hf.
    + rewrite (generatePageID_err w e Hf). eauto.
    + rewrite (generatePageID_ok w Hf). split; [done|].
      eexists. split; [reflexivity|].
      assert (length (map (entropy w) (seq (drawn w) 8)) = 8%nat) as Hlen
        by by rewrite length_map, length_seq.
      split; [exact Hlen|]. split; [reflexivity|].
      split; [by rewrite EncodeToString_length, Hlen|].
      split; [apply EncodeToString_lower|].
      split; [apply DecodeString_EncodeToString|reflexivity].
  - intros tree. destruct (fault w SysGetRandom) as [e|] eqn:Hf.
    + rewrite (generatePageID_err w e Hf).
      by rewrite (generatePageID_err (set_cwd tree w) e Hf).
    + rewrite (generatePageID_ok w Hf).
      by rewrite (generatePageID_ok (set_cwd tree w) Hf).
Qed.

(** ** The file tree *)

Section TreeFacts.
Import Tree.

Lemma writeFile_resolve (t : Z) (names : list string) (data : string)
    (n n' : node) :
  writeFile t names data n = inr n' →
  resolve names n' = inr (File data t).
Proof.
  revert n n'. induction names as [|c names IH]; intros n n' H.
  - destruct n; simpl in H; [|discriminate]. by inversion H.
  - destruct n as [|entries mt]; simpl in H; [discriminate|].
    destruct (entries !! c) as [m|] eqn:Hc.
    + destruct (writeFile t names data m) as [e|m'] eqn:Hw; [discriminate|].
      inversion H; subst n'. simpl. rewrite lookup_insert_eq. eauto.
    + destruct names; [|discriminate].
      inversion H; subst n'. simpl. by rewrite lookup_insert_eq.
Qed.

(** Writing one file of a directory leaves its siblings as they were. *)
Lemma writeFile_sibling (t : Z) (dir : list string) (f g : string)
    (data : string) (n n' : node) :
  writeFile t (dir ++ [f]) data n = inr n' →
  f ≠ g →
  resolve (dir ++ [g]) n' = resolve (dir ++ [g]) n.
Proof.
  intros H Hfg. revert n n' H.
  induction dir as [|c dir IH]; intros n n' H.
  - destruct n as [|entries mt]; simpl in H; [discriminate|].
    destruct (entries !! f) as [m|] eqn:Hf.
    + destruct m; simpl in H; [|discriminate].
      inversion H; subst n'. simpl. by rewrite lookup_insert_ne.
    + inversion H; subst n'. simpl. by rewrite lookup_insert_ne.
  - destruct n as [|entries mt]; simpl in H; [discriminate|].
    destruct (entries !! c) as [m|] eqn:Hc.
    + destruct (writeFile t (dir ++ [f]) data m) as [e|m'] eqn:Hw;
        [discriminate|].
      inversion H; subst n'. simpl. rewrite lookup_insert_eq, Hc. eauto.
    + destruct (dir ++ [f])%list eqn:Hd; [by destruct dir|discriminate].
Qed.

(** Writing a file keeps the directory it is written into a directory. *)
Lemma writeFile_parent (t : Z) (dir : list string) (f : string)
    (data : string) (n n' : node) :
  writeFile t (dir ++ [f]) data n = inr n' →
  ∃ entries mt entries' mt',
    resolve dir n = inr (Dir entries mt)
    ∧ resolve dir n' = inr (Dir entries' mt')
    ∧ entries' = <[f := File data t]> entries
    ∧ (entries !! f = None ∨ ∃ d0 t0, entries !! f = Some (File d0 t0)).
Proof.
  revert n n'. induction dir as [|c dir IH]; intros n n' H.
  - destruct n as [|entries mt]; simpl in H; [discriminate|].
    destruct (entries !! f) as [m|] eqn:Hf.
    + destruct m as [d0 t0|]; simpl in H; [|discriminate].
      inversion H; subst n'. exists entries, mt. do 2 eexists.
      repeat split; eauto.
    + inversion H; subst n'. exists entries, mt. do 2 eexists.
      repeat split; eauto.
  - destruct n as [|entries mt]; simpl in H; [discriminate|].
    destruct (entries !! c) as [m|] eqn:Hc.
    + destruct (writeFile t (dir ++ [f]) data m) as [e|m'] eqn:Hw;
        [discriminate|].
      inversion H; subst n'.
      destruct (IH _ _ Hw) as (es & mt0 & es' & mt0' & H1 & H2 & H3 & H4).
      exists es, mt0, es', mt0'. simpl. rewrite lookup_insert_eq, Hc.
      done.
    + destruct (dir ++ [f])%list eqn:Hd; [by destruct dir|discriminate].
Qed.

Lemma mkdirAll_resolve (t : Z) (names : list string) (n n' : node) :
  mkdirAll t names n = inr n' →
  ∃ entries mt, resolve names n' = inr (Dir entries mt).
Proof.
  revert n n'. induction names as [|c names IH]; intros n n' H.
  - destruct n as [|entries mt]; simpl in H; [discriminate|].
    inversion H; subst n'. simpl. eauto.
  - destruct n as [|entries mt]; simpl in H; [discriminate|].
    destruct (entries !! c) as [m|] eqn:Hc.
    + destruct (mkdirAll t names m) as [e|m'] eqn:Hm; [discriminate|].
      inversion H; subst n'. simpl. rewrite lookup_insert_eq. eauto.
    + destruct (mkdirAll t names (Dir ∅ t)) as [e|m'] eqn:Hm; [discriminate|].
      inversion H; subst n'. simpl. rewrite lookup_insert_eq. eauto.
Qed.

End TreeFacts.

(** ** System calls *)

Section OSFacts.

Lemma update_ok (sc : syscall) (op name : string)
    (f : Z → node → errno + node) (w w' : World) :
  OS.update sc op name f w = (None, w') →
  fault w sc = None
  ∧ ∃ n', f (now w) (cwd w) = inr n' ∧ w' = set_cwd n' w.
Proof.
  unfold OS.update. intros H.
  destruct (fault w sc); [discriminate|].
  destruct (f (now w) (cwd w)) as [e|n'] eqn:Hf; [discriminate|].
  inversion H. eauto.
Qed.

Lemma update_failed (sc : syscall) (op name : string)
    (f : Z → node → errno + node) (w w' : World) (err : error) :
  OS.update sc op name f w = (Some err, w') → w' = w.
Proof.
  unfold OS.update. intros H.
  destruct (fault w sc); [by inversion H|].
  destruct (f (now w) (cwd w)); by inversion H.
Qed.

Lemma update_run (sc : syscall) (op name : string)
    (f : Z → node → errno + node) (w : World) (n' : node) :
  fault w sc = None →
  f (now w) (cwd w) = inr n' →
  OS.update sc op name f w = (None, set_cwd n' w).
Proof. unfold OS.update. by intros -> ->. Qed.

Lemma update_vetoed (sc : syscall) (op name : string)
    (f : Z → node → errno + node) (w : World) (e : errno) :
  fault w sc = Some e →
  OS.update sc op name f w = (Some (PathError op name e), w).
Proof. unfold OS.update. by intros ->. Qed.

Lemma MkdirAll_ok (name : string) (w w' : World) :
  OS.MkdirAll name w = (None, w') →
  fault w (SysMkdirAll name) = None
  ∧ ∃ n', Tree.mkdirAll (now w) (Filepath.components name) (cwd w) = inr n'
          ∧ w' = set_cwd n' w.
Proof.
  unfold OS.MkdirAll. intros H.
  destruct (fault w _); [discriminate|].
  destruct (Tree.mkdirAll _ _ _) as [e|n'] eqn:Hf; [discriminate|].
  inversion H. eauto.
Qed.

Lemma MkdirAll_run (name : string) (w : World) (n' : node) :
  fault w (SysMkdirAll name) = None →
  Tree.mkdirAll (now w) (Filepath.components name) (cwd w) = inr n' →
  OS.MkdirAll name w = (None, set_cwd n' w).
Proof. unfold OS.MkdirAll. by intros -> ->. Qed.

End OSFacts.

(** ** [createPageFile] *)

Section CreateFacts.
Variable md_Convert : string → result string.

Lemma createPageFile_steps (pageID : string) (req : UploadRequest)
    (w : World) :
  plain_name pageID →
  createPageFile md_Convert pageID req w =
    match OS.MkdirAll ("public/" +:+ pageID) w with
    | (Some err, w1) =>
        (Some (Errorf "failed to create content directory" err), w1)
    | (None, w1) =>
        match OS.WriteFile (source_path pageID) (Content req) w1 with
        | (Some err, w2) =>
            (Some (Errorf "failed to write raw source file" err), w2)
        | (None, w2) =>
            if String.eqb (Type' req) "markdown" then
              match md_Convert (Content req) with
              | Err err =>
                  (Some (Errorf "failed to convert markdown" err), w2)
              | Ok htmlContent =>
                  write_rendered pageID
                    (GoStrings.Sprintf page_template
                       [ThemeCSS req; htmlContent]) w2
              end
            else write_rendered pageID (Content req) w2
        end
    end.
Proof.
  intros Hid. unfold createPageFile, write_rendered, bind, ret.
  rewrite (Join_public_2 _ Hid).
  rewrite (Join_folder_file _ _ Hid plain_source_txt).
  rewrite (Join_folder_file _ _ Hid plain_index_html).
  change ("public/" +:+ pageID +:+ "/" +:+ "source.txt")
    with (source_path pageID).
  change ("public/" +:+ pageID +:+ "/" +:+ "index.html")
    with (index_path pageID).
  destruct (OS.MkdirAll _ w) as [[err|] w1]; [done|].
  destruct (OS.WriteFile (source_path pageID) _ w1) as [[err|] w2]; [done|].
  destruct (String.eqb (Type' req) "markdown").
  - destruct (md_Convert (Content req)); [|done].
    by destruct (OS.WriteFile (index_path pageID) _ w2) as [[err|] w3].
  - by destruct (OS.WriteFile (index_path pageID) _ w2) as [[err|] w3].
Qed.

End CreateFacts.

Section CreateSuccess.
Variable md_Convert : string → result string.

Lemma write_rendered_ok (pageID finalContent : string) (w w' : World) :
  plain_name pageID →
  write_rendered pageID finalContent w = (None, w') →
  ∃ n',
    Tree.writeFile (now w) ["public"; pageID; "index.html"] finalContent
      (cwd w) = inr n'
    ∧ w' = set_cwd n' w.
Proof.
  intros Hid. unfold write_rendered.
  destruct (OS.WriteFile _ _ w) as [[err|] w3] eqn:Hw; [discriminate|].
  intros [= <-]. apply update_ok in Hw as (_ & n' & Hn & ->).
  rewrite (components_index_path _ Hid) in Hn. eauto.
Qed.

(** What a successful [createPageFile] leaves behind. *)
Lemma createPageFile_success (pageID : string) (req : UploadRequest)
    (w w' : World) :
  plain_name pageID →
  createPageFile md_Convert pageID req w = (None, w') →
  ∃ finalContent,
    (if String.eqb (Type' req) "markdown"
     then ∃ htmlContent,
            md_Convert (Content req) = Ok htmlContent
            ∧ finalContent =
                GoStrings.Sprintf page_template [ThemeCSS req; htmlContent]
     else finalContent = Content req)
    ∧ Tree.resolve ["public"; pageID; "source.txt"] (cwd w')
        = inr (File (Content req) (now w))
    ∧ Tree.resolve ["public"; pageID; "index.html"] (cwd w')
        = inr (File finalContent (now w))
    ∧ w' = set_cwd (cwd w') w.
Proof.
  intros Hid. rewrite (createPageFile_steps _ _ _ _ Hid).
  destruct (OS.MkdirAll _ w) as [[err|] w1] eqn:Hmk; [discriminate|].
  apply MkdirAll_ok in Hmk as (_ & n1 & _ & ->).
  destruct (OS.WriteFile _ _ (set_cwd n1 w)) as [[err|] w2] eqn:Hsrc;
    [discriminate|].
  apply update_ok in Hsrc as (_ & n2 & Hn2 & ->).
  rewrite (components_source_path _ Hid) in Hn2.
  cbn [now cwd set_cwd] in Hn2.
  assert (∀ finalContent,
    write_rendered pageID finalContent (set_cwd n2 (set_cwd n1 w))
      = (None, w') →
    Tree.resolve ["public"; pageID; "source.txt"] (cwd w')
      = inr (File (Content req) (now w))
    ∧ Tree.resolve ["public"; pageID; "index.html"] (cwd w')
      = inr (File finalContent (now w))
    ∧ w' = set_cwd (cwd w') w) as Hlast.
  { intros finalContent Hwr.
    apply (write_rendered_ok _ _ _ _ Hid) in Hwr as (n3 & Hn3 & ->).
    cbn [now cwd set_cwd] in Hn3 |- *.
    split; [|split; [|done]].
    - change ["public"; pageID; "source.txt"]
        with (["public"; pageID] ++ ["source.txt"])%list.
      rewrite (writeFile_sibling _ ["public"; pageID] "index.html"
                 "source.txt" _ _ _ Hn3) by done.
      apply (writeFile_resolve _ _ _ _ _ Hn2).
    - apply (writeFile_resolve _ _ _ _ _ Hn3). }
  destruct (String.eqb (Type' req) "markdown").
  - destruct (md_Convert (Content req)) as [htmlContent|err] eqn:Hmd;
      [|discriminate].
    intros Hwr. eexists. split; [eauto|]. by apply Hlast.
  - intros Hwr. eexists. split; [reflexivity|]. by apply Hlast.
Qed.

End CreateSuccess.

(** ** Uploads *)

Section UploadFacts.
Import Gin.
Variable md_Convert : string → result string.

Lemma ShouldBindJSON_ok (c : Context) (req : UploadRequest) :
  json_body c = Ok req → Content req ≠ "" → Type' req ≠ "" →
  ShouldBindJSON c = Ok req.
Proof.
  intros Hb Hc Ht. unfold ShouldBindJSON, required. rewrite Hb.
  apply String.eqb_neq in Hc as ->. by apply String.eqb_neq in Ht as ->.
Qed.

Lemma ShouldBindJSON_required (c : Context) (req : UploadRequest) :
  json_body c = Ok req → Content req = "" ∨ Type' req = "" →
  ∃ msg, ShouldBindJSON c = Err (LibError msg).
Proof.
  intros Hb H. unfold ShouldBindJSON, required. rewrite Hb.
  destruct (String.eqb_spec (Content req) "") as [Hc|Hc];
    destruct (String.eqb_spec (Type' req) "") as [Ht|Ht];
    simpl; eauto.
  tauto.
Qed.

Lemma ShouldBindJSON_inv (c : Context) (req : UploadRequest) :
  ShouldBindJSON c = Ok req →
  json_body c = Ok req ∧ Content req ≠ "" ∧ Type' req ≠ "".
Proof.
  unfold ShouldBindJSON, required.
  destruct (json_body c) as [req'|]; [|discriminate].
  destruct (String.eqb_spec (Content req') "") as [Hc|Hc];
    destruct (String.eqb_spec (Type' req') "") as [Ht|Ht];
    simpl; try discriminate.
  by intros [= ->].
Qed.

(** A 200 from [handleUpload] means: the body bound, an identifier was
    drawn, and [createPageFile] returned [nil] for it. *)
Lemma handleUpload_success (c : Context) (w w' : World) (resp : Response) :
  handleUpload md_Convert c w = (resp, w') →
  status resp = 200 →
  ∃ req pageID w1,
    ShouldBindJSON c = Ok req
    ∧ generatePageID w = (Ok pageID, w1)
    ∧ valid_page_id pageID = true
    ∧ now w1 = now w
    ∧ createPageFile md_Convert pageID req w1 = (None, w')
    ∧ resp = mkResponse 200 (JSON_url ("/" +:+ pageID +:+ "/")).
Proof.
  unfold handleUpload, bind, ret.
  destruct (ShouldBindJSON c) as [req|err] eqn:Hbind;
    [|intros [= <- <-]; discriminate].
  destruct (fault w SysGetRandom) as [e|] eqn:Hf.
  - rewrite (generatePageID_err _ _ Hf). intros [= <- <-]. discriminate.
  - rewrite (generatePageID_ok _ Hf).
    destruct (createPageFile _ _ _ _) as [[err|] w2] eqn:Hcreate;
      intros [= <- <-]; [discriminate|]. intros _.
    do 3 eexists. split; [reflexivity|]. split; [reflexivity|].
    split; [|split; [reflexivity|split; [exact Hcreate|reflexivity]]].
    apply generated_id_valid. by rewrite length_map, length_seq.
Qed.

End UploadFacts.

Section UploadClaims.
Import Gin.
Variable md_Convert : string → result string.

Lemma page_template_filled (css htmlContent : string) :
  GoStrings.Sprintf page_template [css; htmlContent] =
    doc_head +:+ "<style>" +:+ css +:+ "</style>" +:+ doc_mid +:+
    article_open +:+ htmlContent +:+ "</article>" +:+ doc_tail.
Proof. reflexivity. Qed.

Lemma createPageFile_as_html (pageID : string) (req : UploadRequest) :
  Type' req ≠ "markdown" →
  createPageFile md_Convert pageID req
    = createPageFile md_Convert pageID (as_html req).
Proof.
  intros Ht. unfold createPageFile. cbn [as_html Content Type' ThemeCSS].
  apply String.eqb_neq in Ht as ->. reflexivity.
Qed.

(** An accepted upload whose type is not ["markdown"] stores its content
    twice, unchanged. *)
Lemma passthrough_upload (c : Context) (req : UploadRequest)
    (w w' : World) (resp : Response) :
  json_body c = Ok req →
  Type' req ≠ "markdown" →
  handleUpload md_Convert c w = (resp, w') →
  status resp = 200 →
  ∃ pageID,
    body resp = JSON_url ("/" +:+ pageID +:+ "/")
    ∧ Tree.resolve (Filepath.components (source_path pageID)) (cwd w')
        = inr (File (Content req) (now w))
    ∧ Tree.resolve (Filepath.components (index_path pageID)) (cwd w')
        = inr (File (Content req) (now w)).
Proof.
  intros Hb Ht Hup Hst.
  destruct (handleUpload_success _ _ _ _ _ Hup Hst)
    as (req' & pageID & w1 & Hbind & _ & Hid & Hnow & Hcreate & ->).
  apply ShouldBindJSON_inv in Hbind as (Hb' & _ & _).
  rewrite Hb in Hb'. injection Hb' as <-.
  apply valid_page_id_plain in Hid.
  destruct (createPageFile_success _ _ _ _ _ Hid Hcreate)
    as (finalContent & Hfinal & Hsrc & Hidx & _).
  apply String.eqb_neq in Ht. rewrite Ht in Hfinal. subst finalContent.
  exists pageID.
  rewrite (components_source_path _ Hid), (components_index_path _ Hid).
  by rewrite Hsrc, Hidx, Hnow.
Qed.

End UploadClaims.

(** C3. For every accepted upload with [type = html], the raw-source file
    and the rendered file of the new page both hold exactly the submitted
    [content]. *)
Theorem html_upload_verbatim (md_Convert : string → result string)
    (c : Gin.Context) (req : UploadRequest) (w w' : World)
    (resp : Gin.Response) :
  Gin.json_body c = Ok req →
  Type' req = "html" →
  handleUpload md_Convert c w = (resp, w') →
  Gin.status resp = 200 →
  ∃ pageID,
    Gin.body resp = Gin.JSON_url ("/" +:+ pageID +:+ "/")
    ∧ Tree.resolve (Filepath.components (source_path pageID)) (cwd w')
        = inr (File (Content req) (now w))
    ∧ Tree.resolve (Filepath.components (index_path pageID)) (cwd w')
        = inr (File (Content req) (now w)).
Proof.
  intros Hb Ht. apply passthrough_upload; [done|]. by rewrite Ht.
Qed.

Lemma html_upload_verbatim_witness :
  let c := Example.upload "html" "<b>hi</b>" "" in
  let out := handleUpload Example.Convert c Example.world in
  ∃ pageID,
    Gin.body out.1 = Gin.JSON_url ("/" +:+ pageID +:+ "/")
    ∧ Tree.resolve (Filepath.components (source_path pageID)) (cwd out.2)
        = inr (File "<b>hi</b>" 10)
    ∧ Tree.resolve (Filepath.components (index_path pageID)) (cwd out.2)
        = inr (File "<b>hi</b>" 10).
Proof.
  intros c out.
  apply (html_upload_verbatim Example.Convert c
           (mkUploadRequest "<b>hi</b>" "html" "") Example.world out.2 out.1).
  - reflexivity.
  - reflexivity.
  - vm_compute. reflexivity.
  - vm_compute. reflexivity.
Defined.

(** C7. For every accepted upload with [type = markdown], the rendered file
    is the standalone document: a [<style>] block holding [themeCSS]
    unchanged, followed by an [<article>] element holding the HTML that the
    Markdown conversion returned. *)
Theorem markdown_upload_document (md_Convert : string → result string)
    (c : Gin.Context) (req : UploadRequest) (w w' : World)
    (resp : Gin.Response) :
  Gin.json_body c = Ok req →
  Type' req = "markdown" →
  handleUpload md_Convert c w = (resp, w') →
  Gin.status resp = 200 →
  ∃ pageID htmlContent,
    Gin.body resp = Gin.JSON_url ("/" +:+ pageID +:+ "/")
    ∧ md_Convert (Content req) = Ok htmlContent
    ∧ Tree.resolve (Filepath.components (index_path pageID)) (cwd w')
        = inr (File (doc_head +:+ "<style>" +:+ ThemeCSS req +:+ "</style>"
                       +:+ doc_mid +:+ article_open +:+ htmlContent
                       +:+ "</article>" +:+ doc_tail) (now w)).
Proof.
  intros Hb Ht Hup Hst.
  destruct (handleUpload_success _ _ _ _ _ Hup Hst)
    as (req' & pageID & w1 & Hbind & _ & Hid & Hnow & Hcreate & ->).
  apply ShouldBindJSON_inv in Hbind as (Hb' & _ & _).
  rewrite Hb in Hb'. injection Hb' as <-.
  apply valid_page_id_plain in Hid.
  destruct (createPageFile_success _ _ _ _ _ Hid Hcreate)
    as (finalContent & Hfinal & _ & Hidx & _).
  rewrite Ht in Hfinal. cbn [String.eqb] in Hfinal.
  change (("markdown" =? "markdown")%string) with true in Hfinal.
  destruct Hfinal as (htmlContent & Hmd & ->).
  exists pageID, htmlContent.
  rewrite (components_index_path _ Hid), Hidx, Hnow.
  by rewrite page_template_filled.
Qed.

Lemma markdown_upload_document_witness :
  let c := Example.upload "markdown" "# Hi" "h1{color:red}" in
  let out := handleUpload Example.Convert c Example.world in
  ∃ pageID htmlContent,
    Gin.body out.1 = Gin.JSON_url ("/" +:+ pageID +:+ "/")
    ∧ Example.Convert "# Hi" = Ok htmlContent
    ∧ Tree.resolve (Filepath.components (index_path pageID)) (cwd out.2)
        = inr (File (doc_head +:+ "<style>" +:+ "h1{color:red}" +:+ "</style>"
                       +:+ doc_mid +:+ article_open +:+ htmlContent
                       +:+ "</article>" +:+ doc_tail) 10).
Proof.
  intros c out.
  apply (markdown_upload_document Example.Convert c
           (mkUploadRequest "# Hi" "markdown" "h1{color:red}")
           Example.world out.2 out.1).
  - reflexivity.
  - reflexivity.
  - vm_compute. reflexivity.
  - vm_compute. reflexivity.
Defined.

(** C10. An upload whose [content] or [type] is the empty string is
    answered 400 with an error message, and the world is left exactly as it
    was: no identifier is drawn and no page is created. *)
Theorem empty_field_rejected (md_Convert : string → result string)
    (c : Gin.Context) (req : UploadRequest) (w : World) :
  Gin.json_body c = Ok req →
  Content req = "" ∨ Type' req = "" →
  ∃ msg,
    handleUpload md_Convert c w
      = (Gin.mkResponse 400 (Gin.JSON_error msg), w).
Proof.
  intros Hb Hempty.
  destruct (ShouldBindJSON_required _ _ Hb Hempty) as (msg & Hbind).
  exists msg. unfold handleUpload. by rewrite Hbind.
Qed.

Lemma empty_field_rejected_witness :
  ∃ msg,
    handleUpload Example.Convert (Example.upload "html" "" "") Example.world
      = (Gin.mkResponse 400 (Gin.JSON_error msg), Example.world).
Proof.
  apply (empty_field_rejected Example.Convert (Example.upload "html" "" "")
           (mkUploadRequest "" "html" "") Example.world).
  - reflexivity.
  - left. reflexivity.
Defined.

(** ** The gate *)

(** C1, as the code has it.  A request to a protected route reaches the
    protected handler exactly when the configured username is empty, or the
    configured password is empty, or the session token of the caller
    validates; every other caller gets the redirect to the login page, the
    handler is not run and the world is left as it was. *)
Theorem authRequired_gate (appConfig : Config)
    (Decode : string → string → result (gmap string string))
    (next : Gin.HandlerFunc) (c : Gin.Context) (w : World) :
  (gate_open appConfig Decode c →
     authRequired appConfig Decode next c w = next c w)
  ∧ (¬ gate_open appConfig Decode c →
     authRequired appConfig Decode next c w = (login_redirect, w)).
Proof.
  unfold gate_open, authRequired.
  destruct (String.eqb_spec (Username appConfig) "") as [Hu|Hu];
    destruct (String.eqb_spec (Password appConfig) "") as [Hp|Hp];
    destruct (isAuthenticated Decode c); simpl; split; intros H;
    try reflexivity; try tauto.
  destruct H as [?|[?|?]]; done.
Qed.

Lemma authRequired_gate_witness :
  authRequired (mkConfig "admin" "secret") Example.Decode
      (handleListPages) (Example.request_for "x") Example.world
    = (login_redirect, Example.world)
  ∧ authRequired (mkConfig "" "") Example.Decode
      (handleListPages) (Example.request_for "x") Example.world
    = handleListPages (Example.request_for "x") Example.world.
Proof.
  split.
  - apply (authRequired_gate (mkConfig "admin" "secret") Example.Decode).
    unfold gate_open. vm_compute. intros [H|[H|H]]; discriminate H.
  - apply (authRequired_gate (mkConfig "" "") Example.Decode).
    left. reflexivity.
Defined.

(** With a username configured and the password left empty, a caller with
    no session token is let through, although the credentials are not both
    empty and no token validates. *)
Lemma authRequired_one_credential_empty :
  let appConfig := mkConfig "admin" "" in
  let c := Example.anonymous in
  ¬ spec_gate_open appConfig Example.Decode c
  ∧ authRequired appConfig Example.Decode handleListPages c Example.world
      = (Gin.mkResponse 200 (Gin.JSON_pages []), Example.world)
  ∧ authRequired appConfig Example.Decode handleListPages c Example.world
      ≠ (login_redirect, Example.world).
Proof.
  intros appConfig c. split; [|split].
  - unfold spec_gate_open. vm_compute. intros [[H _]|H]; discriminate H.
  - vm_compute. reflexivity.
  - vm_compute. discriminate.
Defined.

(** ** Source download *)

Section DownloadFacts.
Import Gin.

Lemma valid_page_id_check (pageID : string) :
  valid_page_id pageID = true →
  String.eqb pageID "" || GoStrings.Contains pageID "."
    || GoStrings.Contains pageID "/" = false.
Proof. unfold valid_page_id. by intros H%negb_true_iff. Qed.

Lemma invalid_page_id_check (pageID : string) :
  valid_page_id pageID = false →
  String.eqb pageID "" || GoStrings.Contains pageID "."
    || GoStrings.Contains pageID "/" = true.
Proof. unfold valid_page_id. by intros H%negb_false_iff. Qed.

(** The source file of a page that is there is sent back whole. *)
Lemma handleDownloadSource_file (c : Context) (w : World)
    (data : string) (t : Z) :
  valid_page_id (Param c "id") = true →
  Tree.resolve ["public"; Param c "id"; "source.txt"] (cwd w)
    = inr (File data t) →
  fault w (SysStat (source_path (Param c "id"))) ≠ Some ENOENT →
  fault w (SysOpen (source_path (Param c "id"))) = None →
  handleDownloadSource c w =
    (mkResponse 200
       (Attachment (Param c "id" +:+ "_source.txt") data), w).
Proof.
  intros Hid Hres Hstat Hopen.
  unfold handleDownloadSource. rewrite (valid_page_id_check _ Hid).
  apply valid_page_id_plain in Hid.
  rewrite (Join_public_3 _ _ Hid plain_source_txt).
  change ("public/" +:+ Param c "id" +:+ "/" +:+ "source.txt")
    with (source_path (Param c "id")).
  unfold bind, OS.Stat, OS.query.
  rewrite (components_source_path _ Hid), Hres.
  assert (FileAttachment (source_path (Param c "id"))
            (GoStrings.Sprintf "%s_source.txt" [Param c "id"]) w
          = (mkResponse 200
               (Attachment (Param c "id" +:+ "_source.txt") data), w))
    as Hsend.
  { unfold FileAttachment.
    by rewrite Hopen, (components_source_path _ Hid), Hres. }
  destruct (fault w (SysStat (source_path (Param c "id")))) as [[]|];
    try exact Hsend.
  done.
Qed.

End DownloadFacts.

(** C2. After [createPageFile] has returned [nil] for an identifier the
    handlers accept and an upload, a source download for that identifier is
    answered 200 with an attachment named [<id>_source.txt] whose bytes are
    exactly the uploaded [content] (provided the environment lets the file
    be read). *)
Theorem source_round_trip (md_Convert : string → result string)
    (pageID : string) (req : UploadRequest) (w w' : World)
    (c : Gin.Context) :
  valid_page_id pageID = true →
  createPageFile md_Convert pageID req w = (None, w') →
  Gin.Param c "id" = pageID →
  fault w' (SysStat (source_path pageID)) ≠ Some ENOENT →
  fault w' (SysOpen (source_path pageID)) = None →
  handleDownloadSource c w' =
    (Gin.mkResponse 200
       (Gin.Attachment (pageID +:+ "_source.txt") (Content req)), w').
Proof.
  intros Hid Hcreate <- Hstat Hopen.
  destruct (createPageFile_success _ _ _ _ _ (valid_page_id_plain _ Hid)
              Hcreate) as (finalContent & _ & Hsrc & _ & _).
  by apply handleDownloadSource_file with (t := now w).
Qed.

Lemma source_round_trip_witness :
  let req := mkUploadRequest "# Hi" "markdown" "" in
  let w' := (createPageFile Example.Convert "0b30557a9fc4e90e" req
               Example.world).2 in
  handleDownloadSource (Example.request_for "0b30557a9fc4e90e") w' =
    (Gin.mkResponse 200
       (Gin.Attachment "0b30557a9fc4e90e_source.txt" "# Hi"), w').
Proof.
  intros req w'.
  apply (source_round_trip Example.Convert "0b30557a9fc4e90e" req
           Example.world w' (Example.request_for "0b30557a9fc4e90e")).
  - reflexivity.
  - vm_compute. reflexivity.
  - reflexivity.
  - discriminate.
  - reflexivity.
Defined.

(** ** Deletion *)

Section DeleteFacts.
Import Gin.


Lemma handleDeletePage_invalid (c : Context) (w : World) :
  valid_page_id (Param c "id") = false →
  handleDeletePage c w
    = (mkResponse 400 (JSON_error "Invalid page ID"), w).
Proof.
  intros Hid. unfold handleDeletePage.
  by rewrite (invalid_page_id_check _ Hid).
Qed.

Lemma handleDeletePage_absent (c : Context) (w : World) :
  valid_page_id (Param c "id") = true →
  fault w (SysStat ("public/" +:+ Param c "id")) = None →
  Tree.resolve ["public"; Param c "id"] (cwd w) = inl ENOENT →
  handleDeletePage c w
    = (mkResponse 404 (JSON_error "Page not found"), w).
Proof.
  intros Hid Hf Hres. unfold handleDeletePage.
  rewrite (valid_page_id_check _ Hid).
  apply valid_page_id_plain in Hid.
  rewrite (Join_public_2 _ Hid).
  unfold bind, OS.Stat, OS.query.
  by rewrite Hf, (components_public_2 _ Hid), Hres.
Qed.


End DeleteFacts.

Section DeleteRefusedName.
Import Gin.




End DeleteRefusedName.




(** ** Partial pages *)

Section PartialFacts.
Import Tree.

Lemma mkdirAll_new (t : Z) (dir : list string) (a : string) (n : node)
    (es : gmap string node) (mt : Z) :
  resolve dir n = inr (Dir es mt) →
  es !! a = None →
  ∃ n', mkdirAll t (dir ++ [a]) n = inr n'
        ∧ resolve (dir ++ [a]) n' = inr (Dir ∅ t).
Proof.
  revert n. induction dir as [|c dir IH]; intros n Hres Ha.
  - simpl in Hres. injection Hres as ->.
    eexists. simpl. rewrite Ha. split; [reflexivity|].
    simpl. by rewrite lookup_insert_eq.
  - destruct n as [|es0 mt0]; [discriminate|]. simpl in Hres.
    destruct (es0 !! c) as [m|] eqn:Hc; [|discriminate].
    destruct (IH m Hres Ha) as (m' & Hm & Hr).
    eexists. simpl. rewrite Hc, Hm. split; [reflexivity|].
    simpl. by rewrite lookup_insert_eq.
Qed.

Lemma writeFile_new (t : Z) (dir : list string) (f data : string)
    (n : node) (es : gmap string node) (mt : Z) :
  resolve dir n = inr (Dir es mt) →
  es !! f = None →
  ∃ n', writeFile t (dir ++ [f]) data n = inr n'
        ∧ resolve dir n' = inr (Dir (<[f := File data t]> es) t).
Proof.
  revert n. induction dir as [|c dir IH]; intros n Hres Hf.
  - simpl in Hres. injection Hres as ->.
    eexists. simpl. rewrite Hf. split; reflexivity.
  - destruct n as [|es0 mt0]; [discriminate|]. simpl in Hres.
    destruct (es0 !! c) as [m|] eqn:Hc; [|discriminate].
    destruct (IH m Hres Hf) as (m' & Hm & Hr).
    eexists. simpl. rewrite Hc, Hm. split; [reflexivity|].
    simpl. by rewrite lookup_insert_eq.
Qed.

End PartialFacts.

Section PartialPages.
Variable md_Convert : string → result string.
Variables (pageID : string) (req : UploadRequest) (w : World).
Variables (es : gmap string node) (mt : Z).
Hypothesis Hid : plain_name pageID.
Hypothesis Hmkdir : fault w (SysMkdirAll ("public/" +:+ pageID)) = None.
Hypothesis Hroot : Tree.resolve ["public"] (cwd w) = inr (Dir es mt).
Hypothesis Hfresh : es !! pageID = None.

(** The directory is created first. *)
Lemma fresh_MkdirAll :
  ∃ n1, OS.MkdirAll ("public/" +:+ pageID) w = (None, set_cwd n1 w)
        ∧ Tree.resolve ["public"; pageID] n1 = inr (Dir ∅ (now w)).
Proof.
  destruct (mkdirAll_new (now w) ["public"] pageID _ _ _ Hroot Hfresh)
    as (n1 & Hn1 & Hr1).
  exists n1. split; [|exact Hr1].
  apply MkdirAll_run; [done|]. by rewrite (components_public_2 _ Hid).
Qed.

(** Then the raw source, unless the write is refused. *)
Lemma fresh_source_written (n1 : node) :
  Tree.resolve ["public"; pageID] n1 = inr (Dir ∅ (now w)) →
  fault w (SysWriteFile (source_path pageID)) = None →
  ∃ n2,
    OS.WriteFile (source_path pageID) (Content req) (set_cwd n1 w)
      = (None, set_cwd n2 w)
    ∧ Tree.resolve ["public"; pageID] n2
        = inr (Dir {["source.txt" := File (Content req) (now w)]} (now w)).
Proof.
  intros Hr1 Hf.
  destruct (writeFile_new (now w) ["public"; pageID] "source.txt"
              (Content req) _ _ _ Hr1 (lookup_empty _)) as (n2 & Hn2 & Hr2).
  exists n2. split; [|exact Hr2].
  apply (update_run _ _ _ _ (set_cwd n1 w)); [done|].
  by rewrite (components_source_path _ Hid).
Qed.

Lemma partial_raw_refused (e : errno) :
  fault w (SysWriteFile (source_path pageID)) = Some e →
  ∃ w',
    createPageFile md_Convert pageID req w
      = (Some (Errorf "failed to write raw source file"
                 (PathError "open" (source_path pageID) e)), w')
    ∧ Tree.resolve ["public"; pageID] (cwd w') = inr (Dir ∅ (now w)).
Proof.
  intros Hf. destruct fresh_MkdirAll as (n1 & Hmk & Hr1).
  exists (set_cwd n1 w). split; [|exact Hr1].
  rewrite (createPageFile_steps _ _ _ _ Hid), Hmk.
  unfold OS.WriteFile.
  by rewrite (update_vetoed (SysWriteFile (source_path pageID)) _ _ _
                (set_cwd n1 w) e Hf).
Qed.

Lemma partial_convert_failed (err : error) :
  fault w (SysWriteFile (source_path pageID)) = None →
  Type' req = "markdown" →
  md_Convert (Content req) = Err err →
  ∃ w',
    createPageFile md_Convert pageID req w
      = (Some (Errorf "failed to convert markdown" err), w')
    ∧ Tree.resolve ["public"; pageID] (cwd w')
        = inr (Dir {["source.txt" := File (Content req) (now w)]} (now w)).
Proof.
  intros Hf Ht Hmd. destruct fresh_MkdirAll as (n1 & Hmk & Hr1).
  destruct (fresh_source_written n1 Hr1 Hf) as (n2 & Hsrc & Hr2).
  exists (set_cwd n2 w). split; [|exact Hr2].
  rewrite (createPageFile_steps _ _ _ _ Hid), Hmk, Hsrc, Ht, Hmd.
  reflexivity.
Qed.

Lemma partial_rendered_refused (e : errno) :
  fault w (SysWriteFile (source_path pageID)) = None →
  fault w (SysWriteFile (index_path pageID)) = Some e →
  (Type' req = "markdown" → ∃ html, md_Convert (Content req) = Ok html) →
  ∃ w',
    createPageFile md_Convert pageID req w
      = (Some (Errorf "failed to write rendered html file"
                 (PathError "open" (index_path pageID) e)), w')
    ∧ Tree.resolve ["public"; pageID] (cwd w')
        = inr (Dir {["source.txt" := File (Content req) (now w)]} (now w)).
Proof.
  intros Hf Hidx Hconv. destruct fresh_MkdirAll as (n1 & Hmk & Hr1).
  destruct (fresh_source_written n1 Hr1 Hf) as (n2 & Hsrc & Hr2).
  exists (set_cwd n2 w). split; [|exact Hr2].
  rewrite (createPageFile_steps _ _ _ _ Hid), Hmk, Hsrc.
  assert (∀ finalContent,
    write_rendered pageID finalContent (set_cwd n2 w)
      = (Some (Errorf "failed to write rendered html file"
                 (PathError "open" (index_path pageID) e)), set_cwd n2 w))
    as Hlast.
  { intros finalContent. unfold write_rendered, OS.WriteFile.
    by rewrite (update_vetoed (SysWriteFile (index_path pageID)) _ _ _
                  (set_cwd n2 w) e Hidx). }
  destruct (String.eqb_spec (Type' req) "markdown") as [Ht|Ht].
  - destruct (Hconv Ht) as (html & ->). apply Hlast.
  - apply Hlast.
Qed.

End PartialPages.

(** C8. [createPageFile] does not undo what it has done when a later step
    fails.  For a new page in an existing storage root: when the write of
    the raw source is refused, the error is returned and the new, empty
    directory stays; when the Markdown conversion fails, or the write of the
    rendered file is refused, the error is returned and the directory stays
    with the raw-source file as its only entry. *)
Theorem createPageFile_not_atomic (md_Convert : string → result string)
    (pageID : string) (req : UploadRequest) (w : World)
    (es : gmap string node) (mt : Z) :
  valid_page_id pageID = true →
  fault w (SysMkdirAll ("public/" +:+ pageID)) = None →
  Tree.resolve ["public"] (cwd w) = inr (Dir es mt) →
  es !! pageID = None →
  (∀ e,
     fault w (SysWriteFile (source_path pageID)) = Some e →
     ∃ w',
       createPageFile md_Convert pageID req w
         = (Some (Errorf "failed to write raw source file"
                    (PathError "open" (source_path pageID) e)), w')
       ∧ Tree.resolve ["public"; pageID] (cwd w') = inr (Dir ∅ (now w)))
  ∧ (∀ err,
     fault w (SysWriteFile (source_path pageID)) = None →
     Type' req = "markdown" →
     md_Convert (Content req) = Err err →
     ∃ w',
       createPageFile md_Convert pageID req w
         = (Some (Errorf "failed to convert markdown" err), w')
       ∧ Tree.resolve ["public"; pageID] (cwd w')
           = inr (Dir {["source.txt" := File (Content req) (now w)]}
                    (now w)))
  ∧ (∀ e,
     fault w (SysWriteFile (source_path pageID)) = None →
     fault w (SysWriteFile (index_path pageID)) = Some e →
     (Type' req = "markdown" → ∃ html, md_Convert (Content req) = Ok html) →
     ∃ w',
       createPageFile md_Convert pageID req w
         = (Some (Errorf "failed to write rendered html file"
                    (PathError "open" (index_path pageID) e)), w')
       ∧ Tree.resolve ["public"; pageID] (cwd w')
           = inr (Dir {["source.txt" := File (Content req) (now w)]}
                    (now w))).
Proof.
  intros Hid%valid_page_id_plain Hmk Hroot Hfresh. split; [|split].
  - intros e. by apply partial_raw_refused with (es := es) (mt := mt).
  - intros err. by apply partial_convert_failed with (es := es) (mt := mt).
  - intros e. by apply partial_rendered_refused with (es := es) (mt := mt).
Qed.

Lemma createPageFile_not_atomic_witness :
  let req := mkUploadRequest "# Hi" "markdown" "" in
  (∃ w',
     createPageFile Example.Convert_fails "0b30557a9fc4e90e" req Example.world
       = (Some (Errorf "failed to convert markdown" (LibError "write failed")),
          w')
     ∧ Tree.resolve ["public"; "0b30557a9fc4e90e"] (cwd w')
         = inr (Dir {["source.txt" := File "# Hi" 10]} 10))
  ∧ (∃ w',
     createPageFile Example.Convert "0b30557a9fc4e90e" req
       (Example.world_disk_full_for "public/0b30557a9fc4e90e/source.txt")
       = (Some (Errorf "failed to write raw source file"
                  (PathError "open" "public/0b30557a9fc4e90e/source.txt"
                     ENOSPC)), w')
     ∧ Tree.resolve ["public"; "0b30557a9fc4e90e"] (cwd w') = inr (Dir ∅ 10)).
Proof.
  intros req. split.
  - destruct (createPageFile_not_atomic Example.Convert_fails
                "0b30557a9fc4e90e" req Example.world ∅ 5)
      as (_ & H & _); [reflexivity..|].
    apply (H (LibError "write failed")); reflexivity.
  - destruct (createPageFile_not_atomic Example.Convert
                "0b30557a9fc4e90e" req
                (Example.world_disk_full_for
                   "public/0b30557a9fc4e90e/source.txt") ∅ 5)
      as (H & _ & _); [reflexivity..|].
    apply (H ENOSPC). reflexivity.
Defined.

(** ** Listing *)

Section ListFacts.
Import Gin.

Lemma Info_pure (entry : OS.DirEntry) (w : World) :
  OS.Info entry w = ((OS.Info entry w).1, w).
Proof.
  unfold OS.Info, OS.query.
  destruct (fault w _); [done|]. by destruct (Tree.resolve _ (cwd w)).
Qed.

Lemma fault_add_logs (lines : list log_line) (w : World) (sc : syscall) :
  fault (add_logs lines w) sc = fault w sc.
Proof. reflexivity. Qed.

Lemma entry_page_add_logs (lines : list log_line) (w : World)
    (entry : OS.DirEntry) :
  entry_page (add_logs lines w) entry = entry_page w entry.
Proof.
  unfold entry_page, OS.Info, OS.query.
  rewrite fault_add_logs. cbn [add_logs cwd].
  destruct (_ && _); [|done].
  destruct (fault w _); [done|].
  by destruct (Tree.resolve _ (cwd w)).
Qed.

Lemma entry_log_add_logs (lines : list log_line) (w : World)
    (entry : OS.DirEntry) :
  entry_log (add_logs lines w) entry = entry_log w entry.
Proof.
  unfold entry_log, OS.Info, OS.query.
  rewrite fault_add_logs. cbn [add_logs cwd].
  destruct (_ && _); [|done].
  destruct (fault w _); [done|].
  by destruct (Tree.resolve _ (cwd w)).
Qed.

Lemma add_logs_nil (w : World) : add_logs [] w = w.
Proof. destruct w. unfold add_logs. simpl. by rewrite app_nil_r. Qed.

Lemma add_logs_add_logs (l1 l2 : list log_line) (w : World) :
  add_logs l2 (add_logs l1 w) = add_logs (l1 ++ l2) w.
Proof. unfold add_logs. simpl. by rewrite app_assoc. Qed.

Lemma omap_pointwise {A B : Type} (f g : A → option B) (l : list A) :
  (∀ x, f x = g x) → omap f l = omap g l.
Proof.
  intros Hfg. induction l as [|x l IH]; [done|].
  cbn [omap list_omap]. by rewrite Hfg, IH.
Qed.

(** The loop, entry by entry. *)
Lemma list_entries_spec (entries : list OS.DirEntry)
    (discoveredPages : list Page) (w : World) :
  list_entries entries discoveredPages w =
    ((discoveredPages ++ omap (entry_page w) entries)%list,
     add_logs (omap (entry_log w) entries) w).
Proof.
  revert discoveredPages w.
  induction entries as [|entry entries IH]; intros acc w.
  - simpl. unfold ret. by rewrite app_nil_r, add_logs_nil.
  - cbn [list_entries omap list_omap]. unfold entry_page at 1, entry_log at 1.
    destruct (OS.entry_IsDir entry
              && negb (String.eqb (OS.Name entry) "index.html")).
    + unfold bind. rewrite (Info_pure entry w).
      destruct ((OS.Info entry w).1) as [info|err].
      * rewrite IH. by rewrite <- app_assoc.
      * unfold OS.log_Printf. rewrite IH.
        change (mkWorld (cwd w) (now w) (entropy w) (drawn w) (veto w)
                  (logged w ++ [LogInfoError (OS.Name entry) err])%list)
          with (add_logs [LogInfoError (OS.Name entry) err] w).
        rewrite add_logs_add_logs.
        rewrite (omap_pointwise _ _ _ (entry_page_add_logs _ w)).
        by rewrite (omap_pointwise _ _ _ (entry_log_add_logs _ w)).
    + apply IH.
Qed.

End ListFacts.

Section ListClaims.
Import Gin.
Variables (w : World) (es : gmap string node) (mt : Z).
Hypothesis Hroot : Tree.resolve ["public"] (cwd w) = inr (Dir es mt).
Hypothesis Hnames : wf_names es.

Lemma resolve_in_public (name : string) (rest : list string) :
  Tree.resolve ("public" :: name :: rest) (cwd w)
    = match es !! name with
      | Some m => Tree.resolve rest m
      | None => inl ENOENT
      end.
Proof.
  destruct (cwd w) as [|r rmt]; [discriminate|]. simpl in Hroot |- *.
  destruct (r !! "public") as [p|]; [|discriminate].
  by injection Hroot as ->.
Qed.

Lemma Info_in_public (name : string) (m : node) (isDir : bool) :
  es !! name = Some m →
  (OS.Info (OS.mkDirEntry "public" name isDir) w).1
    = match fault w (SysLstat ("public/" +:+ name)) with
      | Some e => Err (PathError "lstat" ("public/" +:+ name) e)
      | None => Ok (OS.info_of m)
      end.
Proof.
  intros Hm. unfold OS.Info, OS.query. cbn [OS.parent OS.Name].
  change ("public" +:+ "/" +:+ name) with ("public/" +:+ name).
  destruct (fault w _); [done|].
  rewrite (components_public_2 name) by (apply Hnames; eauto).
  by rewrite resolve_in_public, Hm.
Qed.

Lemma elem_of_sorted_entries (name : string) (m : node) :
  (name, m) ∈ sorted_entries es ↔ es !! name = Some m.
Proof.
  unfold sorted_entries. rewrite merge_sort_Permutation.
  apply elem_of_map_to_list.
Qed.

Lemma NoDup_sorted_entries : NoDup (map fst (sorted_entries es)).
Proof.
  unfold sorted_entries.
  change (map fst ?l) with (fst <$> l).
  rewrite merge_sort_Permutation. apply NoDup_fst_map_to_list.
Qed.

Lemma entry_page_in_public (name : string) (m : node) (p : Page) :
  es !! name = Some m →
  entry_page w (entry_of (name, m)) = Some p ↔
    name ≠ "index.html"
    ∧ fault w (SysLstat ("public/" +:+ name)) = None
    ∧ node_isDir m = true
    ∧ p = mkPage name (node_mtime m).
Proof.
  intros Hm. unfold entry_page, entry_of.
  cbn [OS.entry_IsDir OS.Name fst snd].
  rewrite (Info_in_public _ _ _ Hm).
  destruct (node_isDir m); cbn [andb];
    [|split; [discriminate|by intros (_ & _ & ? & _)]].
  destruct (String.eqb_spec name "index.html") as [Hi|Hi]; cbn [negb];
    [split; [discriminate|by intros (? & _)]|].
  destruct (fault w _); [split; [discriminate|by intros (_ & ? & _)]|].
  cbn [OS.ModTime OS.info_of]. split.
  - by intros [= <-].
  - by intros (_ & _ & _ & ->).
Qed.

Lemma entry_log_in_public (name : string) (m : node) (l : log_line) :
  es !! name = Some m →
  entry_log w (entry_of (name, m)) = Some l ↔
    name ≠ "index.html"
    ∧ node_isDir m = true
    ∧ ∃ e, fault w (SysLstat ("public/" +:+ name)) = Some e
           ∧ l = LogInfoError name
                   (PathError "lstat" ("public/" +:+ name) e).
Proof.
  intros Hm. unfold entry_log, entry_of.
  cbn [OS.entry_IsDir OS.Name fst snd].
  rewrite (Info_in_public _ _ _ Hm).
  destruct (node_isDir m); cbn [andb];
    [|split; [discriminate|by intros (_ & ? & _)]].
  destruct (String.eqb_spec name "index.html") as [Hi|Hi]; cbn [negb];
    [split; [discriminate|by intros (? & _)]|].
  destruct (fault w _) as [e|].
  - split.
    + intros [= <-]. eauto.
    + by intros (_ & _ & e' & [= <-] & ->).
  - split; [discriminate|]. by intros (_ & _ & e' & ? & _).
Qed.

End ListClaims.

Section ListResult.
Import Gin.

Lemma wf_namesb_spec (es : gmap string node) :
  wf_namesb es = true → wf_names es.
Proof.
  unfold wf_namesb, wf_names. intros H name [m Hm].
  rewrite forallb_forall in H.
  assert (plain_nameb name = true) as Hn.
  { apply H. apply in_map_iff. exists (name, m). split; [done|].
    apply list_elem_of_In. by apply elem_of_map_to_list. }
  unfold plain_nameb in Hn. apply negb_true_iff in Hn.
  apply orb_false_iff in Hn as [Hn Hs].
  apply orb_false_iff in Hn as [Hn H3].
  apply orb_false_iff in Hn as [H1 H2].
  by rewrite String.eqb_neq in H1, H2, H3.
Qed.

Lemma ReadDir_public (w : World) (es : gmap string node) (mt : Z) :
  fault w (SysReadDir "public") = None →
  Tree.resolve ["public"] (cwd w) = inr (Dir es mt) →
  OS.ReadDir "public" w = (Ok (map entry_of (sorted_entries es)), w).
Proof.
  intros Hf Hroot. unfold OS.ReadDir, OS.query. rewrite Hf.
  change (Filepath.components "public") with ["public"].
  by rewrite Hroot.
Qed.

Lemma NoDup_pages (w : World) (l : list (string * node)) :
  NoDup (map fst l) →
  NoDup (map ID (omap (entry_page w) (map entry_of l))).
Proof.
  induction l as [|[name m] l IH]; intros Hnd; [constructor|].
  cbn [map fst] in Hnd. apply NoDup_cons in Hnd as [Hnotin Hnd].
  cbn [map omap list_omap].
  destruct (entry_page w (entry_of (name, m))) as [p|] eqn:Hp; [|by apply IH].
  cbn [map]. apply NoDup_cons. split; [|by apply IH].
  assert (ID p = name) as ->.
  { unfold entry_page, entry_of in Hp. cbn [OS.entry_IsDir OS.Name fst snd] in Hp.
    destruct (_ && _); [|discriminate].
    destruct ((OS.Info _ w).1); [|discriminate]. by injection Hp as <-. }
  intros Hin. apply Hnotin.
  apply list_elem_of_In, in_map_iff in Hin as (p' & Hid & Hin).
  apply list_elem_of_In, list_elem_of_omap in Hin as (e & He & Hpe).
  apply list_elem_of_In, in_map_iff in He as ([name' m'] & <- & Hin').
  apply list_elem_of_In, in_map_iff. exists (name', m'). split; [|done].
  unfold entry_page, entry_of in Hpe.
  cbn [OS.entry_IsDir OS.Name fst snd] in Hpe.
  destruct (_ && _); [|discriminate].
  destruct ((OS.Info _ w).1); [|discriminate].
  injection Hpe as <-. exact Hid.
Qed.

End ListResult.

(** C6. When the storage root can be read, [handleListPages] answers 200
    with exactly one entry for each directory in the storage root that is
    not named [index.html] and whose metadata can be obtained, made of the
    name of the directory as [id] and its modification time as
    [createdAt]; a directory whose metadata cannot be obtained is left out
    of the answer and gets one line in the log, and the rest of the listing
    is still returned. *)
Theorem handleListPages_spec (c : Gin.Context) (w : World)
    (es : gmap string node) (mt : Z) :
  fault w (SysReadDir "public") = None →
  Tree.resolve ["public"] (cwd w) = inr (Dir es mt) →
  wf_names es →
  ∃ pages lines,
    handleListPages c w
      = (Gin.mkResponse 200 (Gin.JSON_pages pages), add_logs lines w)
    ∧ (∀ id t,
         mkPage id t ∈ pages ↔
           id ≠ "index.html"
           ∧ fault w (SysLstat ("public/" +:+ id)) = None
           ∧ ∃ sub, es !! id = Some (Dir sub t))
    ∧ NoDup (map ID pages)
    ∧ (∀ id err,
         LogInfoError id err ∈ lines ↔
           id ≠ "index.html"
           ∧ (∃ sub t, es !! id = Some (Dir sub t))
           ∧ ∃ e, fault w (SysLstat ("public/" +:+ id)) = Some e
                  ∧ err = PathError "lstat" ("public/" +:+ id) e).
Proof.
  intros Hf Hroot Hnames.
  exists (omap (entry_page w) (map entry_of (sorted_entries es))).
  exists (omap (entry_log w) (map entry_of (sorted_entries es))).
  split; [|split; [|split]].
  - unfold handleListPages, bind.
    rewrite (ReadDir_public _ _ _ Hf Hroot), list_entries_spec. reflexivity.
  - intros id t. rewrite list_elem_of_omap. split.
    + intros (e & He & Hp).
      apply list_elem_of_In, in_map_iff in He as ([name m] & <- & Hin).
      apply list_elem_of_In, elem_of_sorted_entries in Hin.
      apply (entry_page_in_public w es mt Hroot Hnames _ _ _ Hin) in Hp
        as (Hi & Hl & Hd & [= -> ->]).
      destruct m as [|sub t']; [discriminate|]. simpl. eauto.
    + intros (Hi & Hl & sub & Hm).
      exists (entry_of (id, Dir sub t)). split.
      * apply list_elem_of_In, in_map_iff. exists (id, Dir sub t).
        split; [done|]. by apply list_elem_of_In, elem_of_sorted_entries.
      * by apply (entry_page_in_public w es mt Hroot Hnames _ _ _ Hm).
  - apply NoDup_pages, NoDup_sorted_entries.
  - intros id err. rewrite list_elem_of_omap. split.
    + intros (e & He & Hp).
      apply list_elem_of_In, in_map_iff in He as ([name m] & <- & Hin).
      apply list_elem_of_In, elem_of_sorted_entries in Hin.
      apply (entry_log_in_public w es mt Hroot Hnames _ _ _ Hin) in Hp
        as (Hi & Hd & e' & Hl & [= -> ->]).
      destruct m as [|sub t']; [discriminate|]. eauto 10.
    + intros (Hi & (sub & t & Hm) & e & Hl & ->).
      exists (entry_of (id, Dir sub t)). split.
      * apply list_elem_of_In, in_map_iff. exists (id, Dir sub t).
        split; [done|]. by apply list_elem_of_In, elem_of_sorted_entries.
      * apply (entry_log_in_public w es mt Hroot Hnames _ _ _ Hm). eauto.
Qed.

Lemma handleListPages_spec_witness :
  ∃ pages lines,
    handleListPages Example.anonymous Example.world_listing
      = (Gin.mkResponse 200 (Gin.JSON_pages pages),
         add_logs lines Example.world_listing)
    ∧ mkPage "0b30557a9fc4e90e" 4 ∈ pages
    ∧ (mkPage "aaaaaaaaaaaaaaaa" 6 ∉ pages)
    ∧ LogInfoError "aaaaaaaaaaaaaaaa"
        (PathError "lstat" "public/aaaaaaaaaaaaaaaa" ENOENT) ∈ lines.
Proof.
  destruct (handleListPages_spec Example.anonymous Example.world_listing
              Example.listing_entries 7)
    as (pages & lines & Hrun & Hpages & _ & Hlines).
  - reflexivity.
  - reflexivity.
  - apply wf_namesb_spec. vm_compute. reflexivity.
  - exists pages, lines. split; [exact Hrun|]. split; [|split].
    + apply Hpages. split; [discriminate|]. split; [reflexivity|].
      eexists. reflexivity.
    + intros Hin. apply Hpages in Hin as (_ & Hl & _). discriminate Hl.
    + apply Hlines. split; [discriminate|]. split.
      * do 2 eexists. reflexivity.
      * exists ENOENT. split; reflexivity.
Defined.

(** ** The pipeline on concrete requests *)

Example Join_page_folder :
  Filepath.Join ["public"; "0b30557a9fc4e90e"] = "public/0b30557a9fc4e90e".
Proof. reflexivity. Qed.

Example Join_is_lexical :
  Filepath.Join ["public"; "../x"; "source.txt"] = "x/source.txt".
Proof. reflexivity. Qed.

Example generatePageID_first :
  (generatePageID Example.world).1 = Ok "0b30557a9fc4e90e".
Proof. reflexivity. Qed.

Example upload_then_list :
  let w1 := (handleUpload Example.Convert
               (Example.upload "html" "<b>hi</b>" "") Example.world).2 in
  (handleListPages Example.anonymous w1).1
    = Gin.mkResponse 200 (Gin.JSON_pages [mkPage "0b30557a9fc4e90e" 10]).
Proof. vm_compute. reflexivity. Qed.

Example upload_then_delete_then_download :
  let w1 := (handleUpload Example.Convert
               (Example.upload "html" "<b>hi</b>" "") Example.world).2 in
  let w2 := (handleDeletePage (Example.request_for "0b30557a9fc4e90e") w1).2 in
  (handleDownloadSource (Example.request_for "0b30557a9fc4e90e") w2).1
    = Gin.mkResponse 404 (Gin.JSON_error "Source file not found").
Proof. vm_compute. reflexivity. Qed.

Example listing_skips_vanished_entry :
  (handleListPages Example.anonymous Example.world_listing).1
    = Gin.mkResponse 200 (Gin.JSON_pages [mkPage "0b30557a9fc4e90e" 4]).
Proof. vm_compute. reflexivity. Qed.

Example session_token_opens_gate :
  let appConfig := mkConfig "admin" "secret" in
  let c := Gin.mkContext (<["session" := "good"]> ∅) ∅ (Err (LibError "EOF")) in
  authRequired appConfig Example.Decode handleListPages c Example.world
    = handleListPages c Example.world.
Proof. reflexivity. Qed.

(** * Further properties of the handlers *)

(** ** What the tree operations leave alone *)

Section Confinement.
Import Tree.

Lemma same_outside_refl (p a : string) (n : node) : same_outside p a n n.
Proof. by split. Qed.

Lemma same_outside_trans (p a : string) (n1 n2 n3 : node) :
  same_outside p a n1 n2 → same_outside p a n2 n3 → same_outside p a n1 n3.
Proof.
  intros [H1 H2] [H3 H4]. split.
  - intros b rest Hb. by rewrite H3, H1.
  - intros q rest Hq. by rewrite H4, H2.
Qed.

(** A change below the entry [a] of the directory [p] is not seen from
    anywhere else. *)
Lemma same_outside_insert (p a : string) (es es2 : gmap string node)
    (mt mt' mt2 mt2' : Z) (m' : node) :
  es !! p = Some (Dir es2 mt2) →
  same_outside p a (Dir es mt)
    (Dir (<[p := Dir (<[a := m']> es2) mt2']> es) mt').
Proof.
  intros Hp. split.
  - intros b rest Hb. simpl.
    by rewrite lookup_insert_eq, Hp, lookup_insert_ne.
  - intros q rest Hq. simpl. by rewrite lookup_insert_ne.
Qed.

Lemma same_outside_delete (p a : string) (es es2 : gmap string node)
    (mt mt' mt2 mt2' : Z) :
  es !! p = Some (Dir es2 mt2) →
  same_outside p a (Dir es mt) (Dir (<[p := Dir (delete a es2) mt2']> es) mt').
Proof.
  intros Hp. split.
  - intros b rest Hb. simpl.
    by rewrite lookup_insert_eq, Hp, lookup_delete_ne.
  - intros q rest Hq. simpl. by rewrite lookup_insert_ne.
Qed.

(** The same for a directory [p] that is only now created. *)
Lemma same_outside_new (p a : string) (es : gmap string node)
    (mt mt' mt2' : Z) (m' : node) :
  es !! p = None →
  same_outside p a (Dir es mt) (Dir (<[p := Dir {[a := m']} mt2']> es) mt').
Proof.
  intros Hp. split.
  - intros b rest Hb. simpl.
    by rewrite lookup_insert_eq, Hp, lookup_singleton_ne.
  - intros q rest Hq. simpl. by rewrite lookup_insert_ne.
Qed.

Lemma mkdirAll_confined (t : Z) (p a : string) (n n' : node) :
  mkdirAll t [p; a] n = inr n' → same_outside p a n n'.
Proof.
  destruct n as [|es mt]; [discriminate|]. simpl.
  destruct (es !! p) as [[|es2 mt2]|] eqn:Hp; [discriminate| |].
  - destruct (es2 !! a) as [[|es3 mt3]|] eqn:Ha; [discriminate| |];
      intros [= <-]; by eapply same_outside_insert.
  - rewrite lookup_empty. intros [= <-].
    change (<[a := Dir ∅ t]> ∅) with ({[a := Dir ∅ t]} : gmap string node).
    by apply same_outside_new.
Qed.

Lemma writeFile_confined (t : Z) (p a f data : string) (n n' : node) :
  writeFile t [p; a; f] data n = inr n' → same_outside p a n n'.
Proof.
  destruct n as [|es mt]; [discriminate|]. simpl.
  destruct (es !! p) as [[|es2 mt2]|] eqn:Hp; [discriminate| |discriminate].
  destruct (es2 !! a) as [[|es3 mt3]|] eqn:Ha; [discriminate| |discriminate].
  destruct (es3 !! f) as [[|]|]; [|discriminate|];
    intros [= <-]; by eapply same_outside_insert.
Qed.

Lemma removeAll_confined (t : Z) (p a : string) (n n' : node) :
  removeAll t [p; a] n = inr n' → same_outside p a n n'.
Proof.
  destruct n as [|es mt]; [discriminate|]. simpl.
  destruct (es !! p) as [[|es2 mt2]|] eqn:Hp;
    [discriminate| |intros [= <-]; apply same_outside_refl].
  destruct (es2 !! a) as [m|] eqn:Ha; intros [= <-].
  - by eapply same_outside_delete.
  - split.
    + intros b rest Hb. simpl. by rewrite lookup_insert_eq, Hp.
    + intros q rest Hq. simpl. by rewrite lookup_insert_ne.
Qed.

(** What has been removed is not there. *)
Lemma removeAll_gone (t : Z) (p a : string) (n n' : node) :
  removeAll t [p; a] n = inr n' →
  ∀ rest, resolve (p :: a :: rest) n' = inl ENOENT.
Proof.
  destruct n as [|es mt]; [discriminate|]. simpl.
  destruct (es !! p) as [[|es2 mt2]|] eqn:Hp; [discriminate| |].
  - destruct (es2 !! a) as [m|] eqn:Ha; intros [= <-] rest; simpl.
    + by rewrite lookup_insert_eq, lookup_delete_eq.
    + by rewrite lookup_insert_eq, Ha.
  - intros [= <-] rest. simpl. by rewrite Hp.
Qed.

End Confinement.

(** ** More on deletion *)

Section DeleteMore.
Import Gin.

(** How [handleDeletePage] goes on once the identifier is accepted. *)
Lemma handleDeletePage_valid (c : Context) (w : World) :
  valid_page_id (Param c "id") = true →
  handleDeletePage c w =
    let folderPath := "public/" +:+ Param c "id" in
    if IsNotExist (OS.Stat folderPath w).1
    then (mkResponse 404 (JSON_error "Page not found"), w)
    else
      match OS.RemoveAll folderPath w with
      | (Some err, w1) =>
          (mkResponse 500 (JSON_error "Failed to delete page"),
           add_logs [LogDeleteError folderPath err] w1)
      | (None, w1) =>
          (mkResponse 200 (JSON_message "Page deleted successfully"), w1)
      end.
Proof.
  intros Hid. unfold handleDeletePage.
  rewrite (valid_page_id_check _ Hid).
  rewrite (Join_public_2 _ (valid_page_id_plain _ Hid)).
  unfold bind, ret. cbv zeta.
  assert (OS.Stat ("public/" +:+ Param c "id") w
          = ((OS.Stat ("public/" +:+ Param c "id") w).1, w)) as ->.
  { unfold OS.Stat, OS.query. destruct (fault w _); [done|].
    by destruct (Tree.resolve _ (cwd w)). }
  cbn [fst]. destruct (IsNotExist _); [done|].
  by destruct (OS.RemoveAll _ w) as [[err|] w1].
Qed.

Lemma RemoveAll_outcome (pageID : string) (w : World) :
  plain_name pageID →
  (∃ err, OS.RemoveAll ("public/" +:+ pageID) w = (Some err, w))
  ∨ (∃ n', OS.RemoveAll ("public/" +:+ pageID) w = (None, set_cwd n' w)
           ∧ Tree.removeAll (now w) ["public"; pageID] (cwd w) = inr n').
Proof.
  intros Hid. unfold OS.RemoveAll, OS.update.
  rewrite (components_public_2 _ Hid).
  destruct (fault w _); [eauto|].
  destruct (Tree.removeAll _ _ _) as [e|n']; eauto.
Qed.

Lemma handleDeletePage_200 (c : Context) (w w' : World) (resp : Response) :
  handleDeletePage c w = (resp, w') →
  status resp = 200 →
  valid_page_id (Param c "id") = true
  ∧ ∃ n', Tree.removeAll (now w) ["public"; Param c "id"] (cwd w) = inr n'
          ∧ w' = set_cwd n' w.
Proof.
  destruct (valid_page_id (Param c "id")) eqn:Hid.
  - rewrite (handleDeletePage_valid _ _ Hid). cbv zeta.
    destruct (IsNotExist _); [by intros [= <- <-]|].
    destruct (RemoveAll_outcome _ w (valid_page_id_plain _ Hid))
      as [(err & ->)|(n' & -> & Hrm)].
    + by intros [= <- <-].
    + intros [= <- <-] _. eauto.
  - rewrite (handleDeletePage_invalid _ _ Hid). by intros [= <- <-].
Qed.

End DeleteMore.

(** X1. Whatever the request and whatever the environment does,
    [handleDeletePage] leaves every path alone that is not the entry named
    by the identifier in the storage root, or below it: no other page and
    nothing outside the storage root is ever changed. *)
Theorem handleDeletePage_confined (c : Gin.Context) (w : World) :
  same_outside "public" (Gin.Param c "id") (cwd w)
    (cwd (handleDeletePage c w).2).
Proof.
  destruct (valid_page_id (Gin.Param c "id")) eqn:Hid.
  - rewrite (handleDeletePage_valid _ _ Hid). cbv zeta.
    destruct (IsNotExist _); [apply same_outside_refl|].
    destruct (RemoveAll_outcome _ w (valid_page_id_plain _ Hid))
      as [(err & ->)|(n' & -> & Hrm)].
    + apply same_outside_refl.
    + by apply removeAll_confined in Hrm.
  - rewrite (handleDeletePage_invalid _ _ Hid). apply same_outside_refl.
Qed.

(** X3. After [handleDeletePage] has answered 200 the page is gone for the
    other handlers: a source download for the same identifier is answered
    404, and so is a second deletion. *)
Theorem deleted_page_is_gone (c : Gin.Context) (w w' : World)
    (resp : Gin.Response) :
  handleDeletePage c w = (resp, w') →
  Gin.status resp = 200 →
  (fault w' (SysStat (source_path (Gin.Param c "id"))) = None →
     handleDownloadSource c w' =
       (Gin.mkResponse 404 (Gin.JSON_error "Source file not found"), w'))
  ∧ (fault w' (SysStat ("public/" +:+ Gin.Param c "id")) = None →
     handleDeletePage c w' =
       (Gin.mkResponse 404 (Gin.JSON_error "Page not found"), w')).
Proof.
  intros Hrun Hst.
  destruct (handleDeletePage_200 _ _ _ _ Hrun Hst) as (Hid & n' & Hrm & ->).
  pose proof (removeAll_gone _ _ _ _ _ Hrm) as Hgone.
  pose proof (valid_page_id_plain _ Hid) as Hplain.
  split; intros Hf.
  - unfold handleDownloadSource. rewrite (valid_page_id_check _ Hid).
    rewrite (Join_public_3 _ _ Hplain plain_source_txt).
    change ("public/" +:+ Gin.Param c "id" +:+ "/" +:+ "source.txt")
      with (source_path (Gin.Param c "id")).
    unfold bind, OS.Stat, OS.query.
    rewrite Hf, (components_source_path _ Hplain).
    cbn [cwd set_cwd]. by rewrite (Hgone ["source.txt"]).
  - apply handleDeletePage_absent; [done..|].
    cbn [cwd set_cwd]. apply (Hgone []).
Qed.

Lemma deleted_page_is_gone_witness :
  let c := Example.request_for "0b30557a9fc4e90e" in
  let w' := (handleDeletePage c Example.world_with_file).2 in
  handleDownloadSource c w' =
    (Gin.mkResponse 404 (Gin.JSON_error "Source file not found"), w')
  ∧ handleDeletePage c w' =
      (Gin.mkResponse 404 (Gin.JSON_error "Page not found"), w').
Proof.
  intros c w'.
  destruct (deleted_page_is_gone c Example.world_with_file w'
              (handleDeletePage c Example.world_with_file).1)
    as [H1 H2].
  - vm_compute. reflexivity.
  - vm_compute. reflexivity.
  - split; [apply H1|apply H2]; reflexivity.
Defined.

(** ** More on the source download and the listing *)

(** X4. [handleDownloadSource] only reads: whatever the request and the
    state of the tree, the world after it is the world before it. *)
Theorem handleDownloadSource_read_only (c : Gin.Context) (w : World) :
  (handleDownloadSource c w).2 = w.
Proof.
  unfold handleDownloadSource.
  destruct (_ || _); [done|].
  unfold bind, OS.Stat, OS.query, Gin.FileAttachment, ret.
  destruct (fault w (SysStat _)) as [[]|]; cbn [fst snd IsNotExist];
    try done;
    try (destruct (fault w (SysOpen _)) as [[]|]; try done;
         destruct (Tree.resolve _ (cwd w)) as [[]|[]]; done).
  destruct (Tree.resolve _ (cwd w)) as [[]|m] eqn:Hres;
    cbn [fst snd IsNotExist]; try done;
    destruct (fault w (SysOpen _)) as [[]|]; try done;
    rewrite ?Hres; try done; by destruct m.
Qed.

(** X5. Three error answers of [handleDownloadSource].  An identifier
    that is empty or contains ['.'] or ['/'] gets the JSON error 400,
    whatever the tree holds.  An accepted identifier whose path can be
    examined and leads to nothing (no page of that name, or a page
    directory without [source.txt]) gets the JSON error 404.  An accepted
    identifier that names a plain file of the storage root gets the
    plain-text 404 of [net/http] instead, because the stat does not fail
    with "not found" and the file server is asked. *)
Theorem handleDownloadSource_errors (c : Gin.Context) (w : World) :
  (valid_page_id (Gin.Param c "id") = false →
     handleDownloadSource c w =
       (Gin.mkResponse 400 (Gin.JSON_error "Invalid page ID"), w))
  ∧ (valid_page_id (Gin.Param c "id") = true →
     fault w (SysStat (source_path (Gin.Param c "id"))) = None →
     Tree.resolve ["public"; Gin.Param c "id"; "source.txt"] (cwd w)
       = inl ENOENT →
     handleDownloadSource c w =
       (Gin.mkResponse 404 (Gin.JSON_error "Source file not found"), w))
  ∧ (∀ data t,
     valid_page_id (Gin.Param c "id") = true →
     fault w (SysStat (source_path (Gin.Param c "id"))) = None →
     fault w (SysOpen (source_path (Gin.Param c "id"))) = None →
     Tree.resolve ["public"; Gin.Param c "id"] (cwd w)
       = inr (File data t) →
     handleDownloadSource c w =
       (Gin.mkResponse 404 (Gin.Text "404 page not found"), w)).
Proof.
  split; [|split].
  - intros Hid. unfold handleDownloadSource.
    by rewrite (invalid_page_id_check _ Hid).
  - intros Hid Hf Hres. unfold handleDownloadSource.
    rewrite (valid_page_id_check _ Hid).
    pose proof (valid_page_id_plain _ Hid) as Hplain.
    rewrite (Join_public_3 _ _ Hplain plain_source_txt).
    change ("public/" +:+ Gin.Param c "id" +:+ "/" +:+ "source.txt")
      with (source_path (Gin.Param c "id")).
    unfold bind, OS.Stat, OS.query.
    by rewrite Hf, (components_source_path _ Hplain), Hres.
  - intros data t Hid Hf Ho Hres. unfold handleDownloadSource.
    rewrite (valid_page_id_check _ Hid).
    pose proof (valid_page_id_plain _ Hid) as Hplain.
    rewrite (Join_public_3 _ _ Hplain plain_source_txt).
    change ("public/" +:+ Gin.Param c "id" +:+ "/" +:+ "source.txt")
      with (source_path (Gin.Param c "id")).
    assert (Tree.resolve ["public"; Gin.Param c "id"; "source.txt"] (cwd w)
            = inl ENOTDIR) as Hsrc.
    { destruct (cwd w) as [|es mt]; [discriminate|]. simpl in Hres |- *.
      destruct (es !! "public") as [[|es2 mt2]|]; try discriminate.
      destruct (es2 !! Gin.Param c "id") as [m|]; [|discriminate].
      by injection Hres as ->. }
    unfold bind, OS.Stat, OS.query.
    rewrite Hf, (components_source_path _ Hplain), Hsrc.
    cbn [IsNotExist]. unfold Gin.FileAttachment.
    by rewrite Ho, (components_source_path _ Hplain), Hsrc.
Qed.

Lemma handleDownloadSource_errors_witness :
  handleDownloadSource (Example.request_for "../../etc/passwd")
      Example.world_with_file =
    (Gin.mkResponse 400 (Gin.JSON_error "Invalid page ID"),
     Example.world_with_file)
  ∧ handleDownloadSource (Example.request_for "aaaaaaaaaaaaaaaa")
      Example.world_listing =
    (Gin.mkResponse 404 (Gin.JSON_error "Source file not found"),
     Example.world_listing)
  ∧ handleDownloadSource (Example.request_for "notes")
      Example.world_with_file =
    (Gin.mkResponse 404 (Gin.Text "404 page not found"),
     Example.world_with_file).
Proof.
  split; [|split].
  - apply (handleDownloadSource_errors
             (Example.request_for "../../etc/passwd")
             Example.world_with_file).
    reflexivity.
  - apply (handleDownloadSource_errors
             (Example.request_for "aaaaaaaaaaaaaaaa") Example.world_listing);
      reflexivity.
  - destruct (handleDownloadSource_errors (Example.request_for "notes")
                Example.world_with_file) as (_ & _ & H).
    apply (H "remember" 3); reflexivity.
Defined.

(** X6. [handleListPages] changes nothing but the log, to which it only
    adds: for every request and every state of the tree, the world after it
    is the world before it with some lines appended. *)
Theorem handleListPages_only_logs (c : Gin.Context) (w : World) :
  ∃ lines, (handleListPages c w).2 = add_logs lines w.
Proof.
  unfold handleListPages, bind, ret.
  assert (OS.ReadDir "public" w = ((OS.ReadDir "public" w).1, w)) as ->.
  { unfold OS.ReadDir, OS.query. destruct (fault w _); [done|].
    by destruct (match Tree.resolve _ (cwd w) with
                 | inl e => _ | inr m => _ end). }
  destruct ((OS.ReadDir "public" w).1) as [entries|err].
  - rewrite list_entries_spec. eauto.
  - exists [LogReadDirError err]. reflexivity.
Qed.

(** X7. When the storage root cannot be read (the read is refused, the
    root does not exist, or it is a regular file), [handleListPages]
    answers 500 with the fixed message and writes one line to the log. *)
Theorem handleListPages_unreadable (c : Gin.Context) (w : World) :
  (∃ e, fault w (SysReadDir "public") = Some e)
  ∨ (∃ e, Tree.resolve ["public"] (cwd w) = inl e)
  ∨ (∃ data t, Tree.resolve ["public"] (cwd w) = inr (File data t)) →
  ∃ err,
    handleListPages c w =
      (Gin.mkResponse 500 (Gin.JSON_error "Could not list pages"),
       add_logs [LogReadDirError err] w).
Proof.
  intros H. unfold handleListPages, bind, ret, OS.ReadDir, OS.query.
  change (Filepath.components "public") with ["public"].
  destruct (fault w (SysReadDir "public")) as [e|]; [by eexists|].
  destruct H as [(e & He)|[(e & ->)|(data & t & ->)]];
    [discriminate|by eexists..].
Qed.

Lemma handleListPages_unreadable_witness :
  ∃ err,
    handleListPages Example.anonymous ExampleSession.world_no_root =
      (Gin.mkResponse 500 (Gin.JSON_error "Could not list pages"),
       add_logs [LogReadDirError err] ExampleSession.world_no_root).
Proof.
  apply (handleListPages_unreadable Example.anonymous
           ExampleSession.world_no_root).
  right. left. exists ENOENT. reflexivity.
Defined.

(** ** More on uploads *)

Section CreateMore.
Import Tree.
Variable md_Convert : string → result string.

Lemma update_outcome (sc : syscall) (op name : string)
    (f : Z → node → errno + node) (w : World) :
  (∃ err, OS.update sc op name f w = (Some err, w))
  ∨ (∃ n', OS.update sc op name f w = (None, set_cwd n' w)
           ∧ f (now w) (cwd w) = inr n').
Proof.
  unfold OS.update. destruct (fault w sc); [eauto|].
  destruct (f (now w) (cwd w)); eauto.
Qed.

Lemma MkdirAll_outcome (name : string) (w : World) :
  (∃ err, OS.MkdirAll name w = (Some err, w))
  ∨ (∃ n', OS.MkdirAll name w = (None, set_cwd n' w)
           ∧ mkdirAll (now w) (Filepath.components name) (cwd w) = inr n').
Proof.
  unfold OS.MkdirAll. destruct (fault w _); [eauto|].
  destruct (mkdirAll _ _ _); eauto.
Qed.

Lemma WriteFile_outcome (name data : string) (w : World) :
  (∃ err, OS.WriteFile name data w = (Some err, w))
  ∨ (∃ n', OS.WriteFile name data w = (None, set_cwd n' w)
           ∧ writeFile (now w) (Filepath.components name) data (cwd w)
               = inr n').
Proof. apply update_outcome. Qed.

Lemma resolve_snoc (dir : list string) (f : string) (n m : node) :
  resolve (dir ++ [f]) n = inr m →
  ∃ es mt, resolve dir n = inr (Dir es mt) ∧ es !! f = Some m.
Proof.
  revert n. induction dir as [|c dir IH]; intros n H.
  - destruct n as [|es mt]; [discriminate|]. simpl in H.
    destruct (es !! f) as [m'|] eqn:Hf; [|discriminate].
    injection H as ->. simpl. eauto.
  - destruct n as [|es mt]; [discriminate|]. simpl in H |- *.
    destruct (es !! c); [|discriminate]. by apply IH.
Qed.

Lemma resolve_app_dir (dir : list string) (f : string) (n : node)
    (es : gmap string node) (mt : Z) :
  resolve dir n = inr (Dir es mt) →
  resolve (dir ++ [f]) n
    = match es !! f with Some m => inr m | None => inl ENOENT end.
Proof.
  revert n. induction dir as [|c dir IH]; intros n H.
  - simpl in H. injection H as ->. simpl. by destruct (es !! f).
  - destruct n as [|es0 mt0]; [discriminate|]. simpl in H |- *.
    destruct (es0 !! c); [|discriminate]. by apply IH.
Qed.

Lemma mkdirAll_existing (t : Z) (names : list string) (n : node)
    (es : gmap string node) (mt : Z) :
  resolve names n = inr (Dir es mt) → mkdirAll t names n = inr n.
Proof.
  revert n. induction names as [|c names IH]; intros n H.
  - simpl in H. by injection H as ->.
  - destruct n as [|es0 mt0]; [discriminate|]. simpl in H |- *.
    destruct (es0 !! c) as [m|] eqn:Hc; [|discriminate].
    rewrite (IH m H). by rewrite insert_id.
Qed.

Lemma writeFile_existing (t : Z) (dir : list string) (f data : string)
    (n : node) (es : gmap string node) (mt : Z) (d0 : string) (t0 : Z) :
  resolve dir n = inr (Dir es mt) →
  es !! f = Some (File d0 t0) →
  ∃ n', writeFile t (dir ++ [f]) data n = inr n'
        ∧ resolve dir n' = inr (Dir (<[f := File data t]> es) mt).
Proof.
  revert n. induction dir as [|c dir IH]; intros n Hres Hf.
  - simpl in Hres. injection Hres as ->.
    eexists. simpl. rewrite Hf. split; reflexivity.
  - destruct n as [|es0 mt0]; [discriminate|]. simpl in Hres.
    destruct (es0 !! c) as [m|] eqn:Hc; [|discriminate].
    destruct (IH m Hres Hf) as (m' & Hm & Hr).
    eexists. simpl. rewrite Hc, Hm. split; [reflexivity|].
    simpl. by rewrite lookup_insert_eq.
Qed.

(** [createPageFile] from its three changes of the tree. *)
Lemma createPageFile_run (pageID : string) (req : UploadRequest)
    (w : World) (n1 n2 n3 : node) (finalContent : string) :
  plain_name pageID →
  fault w (SysMkdirAll ("public/" +:+ pageID)) = None →
  fault w (SysWriteFile (source_path pageID)) = None →
  fault w (SysWriteFile (index_path pageID)) = None →
  rendered md_Convert req = Ok finalContent →
  mkdirAll (now w) ["public"; pageID] (cwd w) = inr n1 →
  writeFile (now w) ["public"; pageID; "source.txt"] (Content req) n1
    = inr n2 →
  writeFile (now w) ["public"; pageID; "index.html"] finalContent n2
    = inr n3 →
  createPageFile md_Convert pageID req w = (None, set_cwd n3 w).
Proof.
  intros Hid Hf1 Hf2 Hf3 Hfinal H1 H2 H3.
  rewrite (createPageFile_steps _ _ _ _ Hid).
  rewrite (MkdirAll_run _ w n1 Hf1)
    by by rewrite (components_public_2 _ Hid).
  unfold OS.WriteFile at 1.
  rewrite (update_run (SysWriteFile (source_path pageID)) _ _ _
             (set_cwd n1 w) n2 Hf2)
    by by rewrite (components_source_path _ Hid).
  assert (write_rendered pageID finalContent (set_cwd n2 (set_cwd n1 w))
          = (None, set_cwd n3 w)) as Hlast.
  { unfold write_rendered, OS.WriteFile.
    by rewrite (update_run (SysWriteFile (index_path pageID)) _ _ _
                  (set_cwd n2 (set_cwd n1 w)) n3 Hf3)
      by by rewrite (components_index_path _ Hid). }
  unfold rendered in Hfinal.
  destruct (String.eqb (Type' req) "markdown").
  - destruct (md_Convert (Content req)); [|discriminate].
    assert (GoStrings.Sprintf page_template [ThemeCSS req; a] = finalContent)
      as -> by congruence.
    exact Hlast.
  - assert (Content req = finalContent) as -> by congruence.
    exact Hlast.
Qed.

(** Whatever its outcome, [createPageFile] changes the tree only at and
    below the directory of the page, and nothing else of the world. *)
Lemma createPageFile_confined (pageID : string) (req : UploadRequest)
    (w : World) :
  plain_name pageID →
  same_outside "public" pageID (cwd w)
    (cwd (createPageFile md_Convert pageID req w).2)
  ∧ (createPageFile md_Convert pageID req w).2
      = set_cwd (cwd (createPageFile md_Convert pageID req w).2) w.
Proof.
  intros Hid. rewrite (createPageFile_steps _ _ _ _ Hid).
  destruct (MkdirAll_outcome ("public/" +:+ pageID) w)
    as [(err & ->)|(n1 & -> & H1)].
  { split; [apply same_outside_refl|by destruct w]. }
  rewrite (components_public_2 _ Hid) in H1.
  apply mkdirAll_confined in H1.
  destruct (WriteFile_outcome (source_path pageID) (Content req)
              (set_cwd n1 w)) as [(err & ->)|(n2 & -> & H2)].
  { split; [exact H1|reflexivity]. }
  rewrite (components_source_path _ Hid) in H2.
  apply writeFile_confined in H2. cbn [cwd set_cwd] in H2.
  pose proof (same_outside_trans _ _ _ _ _ H1 H2) as H12.
  assert (∀ finalContent,
    same_outside "public" pageID (cwd w)
      (cwd (write_rendered pageID finalContent
              (set_cwd n2 (set_cwd n1 w))).2)
    ∧ (write_rendered pageID finalContent (set_cwd n2 (set_cwd n1 w))).2
        = set_cwd
            (cwd (write_rendered pageID finalContent
                    (set_cwd n2 (set_cwd n1 w))).2) w) as Hlast.
  { intros finalContent. unfold write_rendered.
    destruct (WriteFile_outcome (index_path pageID) finalContent
                (set_cwd n2 (set_cwd n1 w)))
      as [(err & ->)|(n3 & -> & H3)].
    - split; [exact H12|reflexivity].
    - rewrite (components_index_path _ Hid) in H3.
      apply writeFile_confined in H3. cbn [cwd set_cwd] in H3.
      split; [|reflexivity]. by apply (same_outside_trans _ _ _ _ _ H12). }
  destruct (String.eqb (Type' req) "markdown"); [|apply Hlast].
  destruct (md_Convert (Content req)); [apply Hlast|].
  split; [exact H12|reflexivity].
Qed.

End CreateMore.

Section UploadMore.
Import Gin.
Variable md_Convert : string → result string.

Lemma next_page_id_plain (w : World) : plain_name (next_page_id w).
Proof.
  apply valid_page_id_plain, generated_id_valid.
  by rewrite length_map, length_seq.
Qed.

(** [handleUpload] once the body is bound and the identifier drawn. *)
Lemma handleUpload_bound (c : Context) (req : UploadRequest) (w : World) :
  ShouldBindJSON c = Ok req →
  fault w SysGetRandom = None →
  handleUpload md_Convert c w =
    match createPageFile md_Convert (next_page_id w) req
            (mkWorld (cwd w) (now w) (entropy w) (drawn w + 8)%nat (veto w)
               (logged w)) with
    | (Some err, w') => (mkResponse 500 (JSON_error (Error err)), w')
    | (None, w') =>
        (mkResponse 200 (JSON_url ("/" +:+ next_page_id w +:+ "/")), w')
    end.
Proof.
  intros Hb Hf. unfold handleUpload, bind, ret.
  rewrite Hb, (generatePageID_ok _ Hf). fold (next_page_id w).
  by destruct (createPageFile _ _ _ _) as [[err|] w'].
Qed.

End UploadMore.

(** X8. Whatever the request and whatever the environment does,
    [handleUpload] changes the tree at most at and below the directory of
    the page it creates: every other page, and everything outside the
    storage root, is as before. *)
Theorem handleUpload_confined (md_Convert : string → result string)
    (c : Gin.Context) (w : World) :
  same_outside "public" (next_page_id w) (cwd w)
    (cwd (handleUpload md_Convert c w).2).
Proof.
  destruct (Gin.ShouldBindJSON c) as [req|err] eqn:Hb.
  - destruct (fault w SysGetRandom) as [e|] eqn:Hf.
    + unfold handleUpload, bind, ret.
      rewrite Hb, (generatePageID_err _ _ Hf). apply same_outside_refl.
    + rewrite (handleUpload_bound _ _ _ _ Hb Hf).
      pose proof (createPageFile_confined md_Convert (next_page_id w) req
                    (mkWorld (cwd w) (now w) (entropy w) (drawn w + 8)%nat
                       (veto w) (logged w)) (next_page_id_plain w))
        as [Hsame _].
      by destruct (createPageFile _ _ _ _) as [[err|] w'].
  - unfold handleUpload. rewrite Hb. apply same_outside_refl.
Qed.

(** An upload that binds, into a storage root with no entry under the
    next identifier, with none of its four system calls refused. *)
Lemma upload_into_fresh_root (md_Convert : string → result string)
    (c : Gin.Context) (req : UploadRequest) (w : World)
    (es : gmap string node) (mt : Z) (finalContent : string) :
  Gin.json_body c = Ok req →
  Content req ≠ "" →
  Type' req ≠ "" →
  rendered md_Convert req = Ok finalContent →
  fault w SysGetRandom = None →
  fault w (SysMkdirAll ("public/" +:+ next_page_id w)) = None →
  fault w (SysWriteFile (source_path (next_page_id w))) = None →
  fault w (SysWriteFile (index_path (next_page_id w))) = None →
  Tree.resolve ["public"] (cwd w) = inr (Dir es mt) →
  es !! next_page_id w = None →
  ∃ w',
    handleUpload md_Convert c w
      = (Gin.mkResponse 200 (Gin.JSON_url ("/" +:+ next_page_id w +:+ "/")),
         w')
    ∧ Tree.resolve ["public"; next_page_id w] (cwd w')
        = inr (Dir (<["index.html" := File finalContent (now w)]>
                      {["source.txt" := File (Content req) (now w)]})
                 (now w))
    ∧ drawn w' = (drawn w + 8)%nat.
Proof.
  intros Hb Hc Ht Hfinal Hrand Hmk Hsrc Hidx Hroot Hfresh.
  pose proof (next_page_id_plain w) as Hid.
  rewrite (handleUpload_bound _ _ _ _ (ShouldBindJSON_ok _ _ Hb Hc Ht) Hrand).
  set (w1 := mkWorld (cwd w) (now w) (entropy w) (drawn w + 8)%nat (veto w)
               (logged w)).
  destruct (mkdirAll_new (now w) ["public"] (next_page_id w) _ _ _ Hroot
              Hfresh) as (n1 & H1 & Hr1).
  destruct (writeFile_new (now w) ["public"; next_page_id w] "source.txt"
              (Content req) _ _ _ Hr1 (lookup_empty _)) as (n2 & H2 & Hr2).
  destruct (writeFile_new (now w) ["public"; next_page_id w] "index.html"
              finalContent _ _ _ Hr2) as (n3 & H3 & Hr3).
  { by rewrite lookup_insert_ne. }
  rewrite (createPageFile_run md_Convert (next_page_id w) req w1 n1 n2 n3
             finalContent Hid Hmk Hsrc Hidx Hfinal H1 H2 H3).
  exists (set_cwd n3 w1). split; [reflexivity|]. split; [exact Hr3|done].
Qed.

(** X10. An upload with non-empty [content] and [type], whose conversion
    does not fail, into an existing storage root that has no entry under
    the next identifier, with none of its system calls refused (the read of
    the random source, the creation of the directory and the two writes),
    is answered 200 with the URL [/<id>/]; afterwards the directory of the
    page holds exactly the two files [source.txt] and [index.html], and 8
    more bytes of the random source are used. *)
Theorem handleUpload_fresh (md_Convert : string → result string)
    (c : Gin.Context) (req : UploadRequest) (w : World)
    (es : gmap string node) (mt : Z) (finalContent : string) :
  Gin.json_body c = Ok req →
  Content req ≠ "" →
  Type' req ≠ "" →
  rendered md_Convert req = Ok finalContent →
  fault w SysGetRandom = None →
  fault w (SysMkdirAll ("public/" +:+ next_page_id w)) = None →
  fault w (SysWriteFile (source_path (next_page_id w))) = None →
  fault w (SysWriteFile (index_path (next_page_id w))) = None →
  Tree.resolve ["public"] (cwd w) = inr (Dir es mt) →
  es !! next_page_id w = None →
  ∃ w',
    handleUpload md_Convert c w
      = (Gin.mkResponse 200 (Gin.JSON_url ("/" +:+ next_page_id w +:+ "/")),
         w')
    ∧ Tree.resolve ["public"; next_page_id w] (cwd w')
        = inr (Dir (<["index.html" := File finalContent (now w)]>
                      {["source.txt" := File (Content req) (now w)]})
                 (now w))
    ∧ drawn w' = (drawn w + 8)%nat.
Proof. apply upload_into_fresh_root. Qed.

Lemma handleUpload_fresh_witness :
  ∃ w',
    handleUpload Example.Convert (Example.upload "markdown" "# Hi" "")
        Example.world
      = (Gin.mkResponse 200 (Gin.JSON_url "/0b30557a9fc4e90e/"), w')
    ∧ Tree.resolve ["public"; "0b30557a9fc4e90e"] (cwd w')
        = inr (Dir (<["index.html" :=
                       File (GoStrings.Sprintf page_template [""; "<p># Hi</p>"])
                         10]>
                      {["source.txt" := File "# Hi" 10]}) 10)
    ∧ drawn w' = 8%nat.
Proof.
  apply (handleUpload_fresh Example.Convert
           (Example.upload "markdown" "# Hi" "")
           (mkUploadRequest "# Hi" "markdown" "") Example.world ∅ 5
           (GoStrings.Sprintf page_template [""; "<p># Hi</p>"]));
    try reflexivity; discriminate.
Defined.

(** X11. [createPageFile] does not notice that a page already exists:
    called for an identifier whose directory already holds both files, it
    returns [nil], replaces the contents of both, and leaves the
    modification time of the directory, hence the [createdAt] of the page,
    as it was. *)
Theorem createPageFile_overwrites (md_Convert : string → result string)
    (pageID : string) (req : UploadRequest) (w : World)
    (sub : gmap string node) (t0 : Z) (old_src old_idx : string)
    (t1 t2 : Z) (finalContent : string) :
  valid_page_id pageID = true →
  fault w (SysMkdirAll ("public/" +:+ pageID)) = None →
  fault w (SysWriteFile (source_path pageID)) = None →
  fault w (SysWriteFile (index_path pageID)) = None →
  rendered md_Convert req = Ok finalContent →
  Tree.resolve ["public"; pageID] (cwd w) = inr (Dir sub t0) →
  sub !! "source.txt" = Some (File old_src t1) →
  sub !! "index.html" = Some (File old_idx t2) →
  ∃ w',
    createPageFile md_Convert pageID req w = (None, w')
    ∧ Tree.resolve ["public"; pageID] (cwd w')
        = inr (Dir (<["index.html" := File finalContent (now w)]>
                      (<["source.txt" := File (Content req) (now w)]> sub))
                 t0).
Proof.
  intros Hid%valid_page_id_plain Hf1 Hf2 Hf3 Hfinal Hres Hsrc Hidx.
  pose proof (mkdirAll_existing (now w) _ _ _ _ Hres) as H1.
  destruct (writeFile_existing (now w) ["public"; pageID] "source.txt"
              (Content req) _ _ _ _ _ Hres Hsrc) as (n2 & H2 & Hr2).
  destruct (writeFile_existing (now w) ["public"; pageID] "index.html"
              finalContent _ _ _ old_idx t2 Hr2) as (n3 & H3 & Hr3).
  { by rewrite lookup_insert_ne. }
  exists (set_cwd n3 w). split; [|exact Hr3].
  by apply (createPageFile_run md_Convert pageID req w (cwd w) n2 n3
              finalContent).
Qed.

Lemma createPageFile_overwrites_witness :
  ∃ w',
    createPageFile Example.Convert "0b30557a9fc4e90e"
        (mkUploadRequest "new words" "html" "") Example.world_with_file
      = (None, w')
    ∧ Tree.resolve ["public"; "0b30557a9fc4e90e"] (cwd w')
        = inr (Dir (<["index.html" := File "new words" 10]>
                      (<["source.txt" := File "new words" 10]>
                         (<["source.txt" := File "<b>hi</b>" 4]>
                            (<["index.html" := File "<b>hi</b>" 4]> ∅))))
                 4).
Proof.
  apply (createPageFile_overwrites Example.Convert "0b30557a9fc4e90e"
           (mkUploadRequest "new words" "html" "") Example.world_with_file
           (<["source.txt" := File "<b>hi</b>" 4]>
              (<["index.html" := File "<b>hi</b>" 4]> ∅))
           4 "<b>hi</b>" "<b>hi</b>" 4 4 "new words");
    reflexivity.
Defined.



(** X13. A page that [handleUpload] has just created (answer 200) is in
    the next listing under the identifier of its URL, provided the storage
    root and the page can be read. *)
Theorem uploaded_page_is_listed (md_Convert : string → result string)
    (c c' : Gin.Context) (w w' : World) (resp : Gin.Response)
    (es' : gmap string node) (mt' : Z) :
  handleUpload md_Convert c w = (resp, w') →
  Gin.status resp = 200 →
  fault w' (SysReadDir "public") = None →
  fault w' (SysLstat ("public/" +:+ next_page_id w)) = None →
  Tree.resolve ["public"] (cwd w') = inr (Dir es' mt') →
  wf_names es' →
  Gin.body resp = Gin.JSON_url ("/" +:+ next_page_id w +:+ "/")
  ∧ ∃ pages lines t,
      handleListPages c' w'
        = (Gin.mkResponse 200 (Gin.JSON_pages pages), add_logs lines w')
      ∧ mkPage (next_page_id w) t ∈ pages.
Proof.
  intros Hup Hst Hf Hl Hroot Hnames.
  destruct (handleUpload_success _ _ _ _ _ Hup Hst)
    as (req & pageID & w1 & _ & Hgen & Hid & _ & Hcreate & ->).
  assert (pageID = next_page_id w) as ->.
  { destruct (fault w SysGetRandom) as [e|] eqn:Hr.
    - rewrite (generatePageID_err _ _ Hr) in Hgen. discriminate.
    - rewrite (generatePageID_ok _ Hr) in Hgen. by injection Hgen as <- _. }
  split; [reflexivity|].
  destruct (createPageFile_success _ _ _ _ _ (valid_page_id_plain _ Hid)
              Hcreate) as (finalContent & _ & Hsrc & _ & _).
  rewrite (resolve_in_public w' es' mt' Hroot) in Hsrc.
  destruct (es' !! next_page_id w) as [m|] eqn:Hm; [|discriminate].
  destruct m as [|sub t]; [discriminate|].
  exists (omap (entry_page w') (map entry_of (sorted_entries es'))).
  exists (omap (entry_log w') (map entry_of (sorted_entries es'))).
  exists t. split.
  - unfold handleListPages, bind.
    rewrite (ReadDir_public _ _ _ Hf Hroot), list_entries_spec. reflexivity.
  - apply list_elem_of_omap.
    exists (entry_of (next_page_id w, Dir sub t)). split.
    + apply list_elem_of_In, in_map_iff. exists (next_page_id w, Dir sub t).
      split; [done|]. by apply list_elem_of_In, elem_of_sorted_entries.
    + apply (entry_page_in_public w' es' mt' Hroot Hnames _ _ _ Hm).
      split; [|done].
      intros Heq. apply valid_page_id_spec in Hid as (_ & _ & _ & Hdot & _).
      rewrite Heq in Hdot. discriminate Hdot.
Qed.

Lemma uploaded_page_is_listed_witness :
  let out := handleUpload Example.Convert
               (Example.upload "html" "<b>hi</b>" "") Example.world in
  Gin.body out.1 = Gin.JSON_url "/0b30557a9fc4e90e/"
  ∧ ∃ pages lines t,
      handleListPages Example.anonymous out.2
        = (Gin.mkResponse 200 (Gin.JSON_pages pages), add_logs lines out.2)
      ∧ mkPage "0b30557a9fc4e90e" t ∈ pages.
Proof.
  intros out.
  apply (uploaded_page_is_listed Example.Convert
           (Example.upload "html" "<b>hi</b>" "") Example.anonymous
           Example.world out.2 out.1
           (<["0b30557a9fc4e90e" :=
               Dir (<["index.html" := File "<b>hi</b>" 10]>
                      (<["source.txt" := File "<b>hi</b>" 10]> ∅)) 10]> ∅)
           10).
  - vm_compute. reflexivity.
  - vm_compute. reflexivity.
  - reflexivity.
  - reflexivity.
  - vm_compute. reflexivity.
  - apply wf_namesb_spec. vm_compute. reflexivity.
Defined.

(** ** Sessions *)

Lemma isAuthenticated_session
    (Decode : string → string → result (gmap string string))
    (c : Gin.Context) (cookie : string) :
  Gin.cookies c !! "session" = Some cookie →
  Decode "session" cookie = Ok session_value →
  isAuthenticated Decode c = true.
Proof.
  intros Hc Hd. unfold isAuthenticated, Gin.Cookie. by rewrite Hc, Hd.
Qed.

(** [isAuthenticated] holds exactly when the request carries a cookie
    named [session], that cookie decodes, and the decoded value maps the
    key [authenticated] to the string [true]: a missing cookie, a cookie
    that does not decode, a value without the key and a value with any
    other string under it all count as not authenticated. *)
Theorem isAuthenticated_iff
    (Decode : string → string → result (gmap string string))
    (c : Gin.Context) :
  isAuthenticated Decode c = true ↔
    ∃ cookie value,
      Gin.cookies c !! "session" = Some cookie
      ∧ Decode "session" cookie = Ok value
      ∧ value !! "authenticated" = Some "true".
Proof.
  unfold isAuthenticated, Gin.Cookie. split.
  - destruct (Gin.cookies c !! "session") as [cookie|]; [|discriminate].
    destruct (Decode "session" cookie) as [value|] eqn:Hd; [|discriminate].
    destruct (value !! "authenticated") as [v|] eqn:Hv; [|discriminate].
    simpl. intros ->%String.eqb_eq. eauto.
  - intros (cookie & value & -> & -> & ->). reflexivity.
Qed.

(** X14. [handleLogin] sets a cookie only for a form whose [username] and
    [password] (empty when the field is missing) both equal the configured
    ones, and then only if the session value could be encoded: the reply is
    then the redirect to [/] with exactly one cookie, named [session],
    holding the encoded value, with a lifetime of 24 hours, path [/],
    HTTP-only and not restricted to HTTPS.  Any other form gets 401 (or 500
    when the encoding failed) and no cookie. *)
Theorem handleLogin_cookie (appConfig : Config)
    (Encode : string → gmap string string → result string)
    (form : gmap string string) :
  let reply := handleLogin appConfig Encode form in
  let matches :=
    Session.PostForm form "username" = Username appConfig
    ∧ Session.PostForm form "password" = Password appConfig in
  (¬ matches →
     reply = Session.mkReply []
               (Session.Render 401 "login.html"
                  (Some "Invalid username or password")))
  ∧ (matches → ∀ err,
     Encode "session" session_value = Err err →
     reply = Session.mkReply []
               (Session.Render 500 "login.html"
                  (Some "Failed to create session")))
  ∧ (matches → ∀ encoded,
     Encode "session" session_value = Ok encoded →
     reply = Session.mkReply
               [Session.mkCookie "session" encoded 86400 "/" "" false true]
               (Session.Found 302 "/")).
Proof.
  intros reply matches. subst reply matches.
  unfold handleLogin, createSession. fold session_value.
  destruct (String.eqb_spec (Session.PostForm form "username")
              (Username appConfig)) as [Hu|Hu];
    destruct (String.eqb_spec (Session.PostForm form "password")
                (Password appConfig)) as [Hp|Hp];
    cbn [andb]; (split; [|split]);
    try (intros H; try reflexivity; exfalso; tauto);
    try (intros [? ?]; contradiction).
  - intros _ err ->. reflexivity.
  - intros _ encoded ->. reflexivity.
Qed.

Lemma handleLogin_cookie_witness :
  handleLogin ExampleSession.appConfig ExampleSession.Encode
      (ExampleSession.form "admin" "secret")
    = Session.mkReply
        [Session.mkCookie "session" "good" 86400 "/" "" false true]
        (Session.Found 302 "/")
  ∧ handleLogin ExampleSession.appConfig ExampleSession.Encode
      (<["username" := "admin"]> ∅)
    = Session.mkReply []
        (Session.Render 401 "login.html"
           (Some "Invalid username or password")).
Proof.
  split.
  - apply (handleLogin_cookie ExampleSession.appConfig ExampleSession.Encode
             (ExampleSession.form "admin" "secret")).
    + split; reflexivity.
    + reflexivity.
  - apply (handleLogin_cookie ExampleSession.appConfig ExampleSession.Encode
             (<["username" := "admin"]> ∅)).
    intros [_ H]. discriminate H.
Defined.

(** X15. Login composes with the gate: if the cookie codec decodes what it
    encoded, then after a login that was answered with the redirect to [/],
    every request that carries the cookie of that reply passes
    [authRequired], whatever credentials are configured. *)
Theorem login_opens_gate (appConfig : Config)
    (Encode : string → gmap string string → result string)
    (Decode : string → string → result (gmap string string))
    (form : gmap string string) (cookies : list Session.Cookie) :
  (∀ encoded,
     Encode "session" session_value = Ok encoded →
     Decode "session" encoded = Ok session_value) →
  handleLogin appConfig Encode form
    = Session.mkReply cookies (Session.Found 302 "/") →
  ∃ ck,
    cookies = [ck]
    ∧ ∀ (next : Gin.HandlerFunc) (c : Gin.Context) (w : World),
        Gin.cookies c !! Session.cookie_name ck
          = Some (Session.cookie_value ck) →
        authRequired appConfig Decode next c w = next c w.
Proof.
  intros Hcodec. unfold handleLogin, createSession. fold session_value.
  destruct (_ && _); [|discriminate].
  destruct (Encode "session" session_value) as [encoded|err] eqn:He;
    [|discriminate].
  intros [= <-]. eexists. split; [reflexivity|].
  intros next c w Hc. cbn [Session.cookie_name Session.cookie_value
                             Session.SetCookie] in Hc.
  unfold authRequired.
  assert (isAuthenticated Decode c = true) as ->.
  { apply isAuthenticated_session with encoded; [done|]. by apply Hcodec. }
  by rewrite !orb_true_r.
Qed.

Lemma login_opens_gate_witness :
  ∃ ck,
    [Session.mkCookie "session" "good" 86400 "/" "" false true] = [ck]
    ∧ ∀ (next : Gin.HandlerFunc) (c : Gin.Context) (w : World),
        Gin.cookies c !! Session.cookie_name ck
          = Some (Session.cookie_value ck) →
        authRequired ExampleSession.appConfig Example.Decode next c w
          = next c w.
Proof.
  apply (login_opens_gate ExampleSession.appConfig ExampleSession.Encode
           Example.Decode (ExampleSession.form "admin" "secret")).
  - intros encoded [= <-]. reflexivity.
  - reflexivity.
Defined.

(** ** Identifiers, again *)

(** X16. Two calls of [generatePageID] that both succeed return the same
    identifier only if they read the same 8 bytes: the encoding loses
    nothing. *)
Theorem generatePageID_injective (w1 w2 : World) (pageID : string)
    (w1' w2' : World) :
  generatePageID w1 = (Ok pageID, w1') →
  generatePageID w2 = (Ok pageID, w2') →
  map (entropy w1) (seq (drawn w1) 8) = map (entropy w2) (seq (drawn w2) 8).
Proof.
  intros H1 H2.
  destruct (fault w1 SysGetRandom) as [e|] eqn:Hf1;
    [rewrite (generatePageID_err _ _ Hf1) in H1; discriminate|].
  destruct (fault w2 SysGetRandom) as [e|] eqn:Hf2;
    [rewrite (generatePageID_err _ _ Hf2) in H2; discriminate|].
  rewrite (generatePageID_ok _ Hf1) in H1.
  rewrite (generatePageID_ok _ Hf2) in H2.
  set (bs1 := map (entropy w1) (seq (drawn w1) 8)) in *.
  set (bs2 := map (entropy w2) (seq (drawn w2) 8)) in *.
  assert (Hex.EncodeToString bs1 = Hex.EncodeToString bs2) as Heq
    by congruence.
  pose proof (DecodeString_EncodeToString bs1) as D1.
  pose proof (DecodeString_EncodeToString bs2) as D2.
  rewrite Heq in D1. congruence.
Qed.

Lemma generatePageID_injective_witness :
  map (entropy Example.world) (seq (drawn Example.world) 8)
    = map (entropy Example.world_with_file)
        (seq (drawn Example.world_with_file) 8).
Proof.
  apply (generatePageID_injective Example.world Example.world_with_file
           "0b30557a9fc4e90e" (generatePageID Example.world).2
           (generatePageID Example.world_with_file).2);
    reflexivity.
Defined.

(** ** Paths *)

(** X17. For every identifier the handlers accept, the path
    [createPageFile] writes the raw source to (joined in two steps) is the
    path [handleDownloadSource] reads (joined in one step), namely
    [public/<id>/source.txt], which the kernel resolves through exactly the
    three names [public], the identifier and [source.txt]: the identifier
    cannot lead out of the storage root. *)
Theorem source_paths_agree (pageID : string) :
  valid_page_id pageID = true →
  Filepath.Join [Filepath.Join ["public"; pageID]; "source.txt"]
    = Filepath.Join ["public"; pageID; "source.txt"]
  ∧ Filepath.Join ["public"; pageID; "source.txt"]
    = "public/" +:+ pageID +:+ "/source.txt"
  ∧ Filepath.components (Filepath.Join ["public"; pageID; "source.txt"])
    = ["public"; pageID; "source.txt"].
Proof.
  intros Hid%valid_page_id_plain.
  rewrite (Join_public_2 _ Hid).
  rewrite (Join_folder_file _ _ Hid plain_source_txt).
  rewrite (Join_public_3 _ _ Hid plain_source_txt).
  split; [reflexivity|]. split; [reflexivity|].
  apply (components_source_path _ Hid).
Qed.

Lemma source_paths_agree_witness :
  Filepath.Join [Filepath.Join ["public"; "0b30557a9fc4e90e"]; "source.txt"]
    = Filepath.Join ["public"; "0b30557a9fc4e90e"; "source.txt"]
  ∧ Filepath.Join ["public"; "0b30557a9fc4e90e"; "source.txt"]
    = "public/" +:+ "0b30557a9fc4e90e" +:+ "/source.txt"
  ∧ Filepath.components
      (Filepath.Join ["public"; "0b30557a9fc4e90e"; "source.txt"])
    = ["public"; "0b30557a9fc4e90e"; "source.txt"].
Proof.
  apply (source_paths_agree "0b30557a9fc4e90e"). reflexivity.
Defined.

(** ** The type of an upload is not checked *)

(** C9. An upload whose [type] is any non-empty string other than
    ["markdown"] is handled exactly as the same upload with [type = html]:
    same response and same resulting world, whatever the world.  And with
    non-empty [content], a storage root with no entry under the next
    identifier and none of its system calls refused, it is accepted:
    answered 200 with the URL of the new page, whose raw-source file and
    rendered file both hold [content] unchanged. *)
Theorem other_type_handled_as_html (md_Convert : string → result string)
    (c : Gin.Context) (req : UploadRequest) (w : World) :
  Gin.json_body c = Ok req →
  Type' req ≠ "" →
  Type' req ≠ "markdown" →
  handleUpload md_Convert c w
    = handleUpload md_Convert (with_body c (as_html req)) w
  ∧ ∀ es mt,
      Content req ≠ "" →
      fault w SysGetRandom = None →
      fault w (SysMkdirAll ("public/" +:+ next_page_id w)) = None →
      fault w (SysWriteFile (source_path (next_page_id w))) = None →
      fault w (SysWriteFile (index_path (next_page_id w))) = None →
      Tree.resolve ["public"] (cwd w) = inr (Dir es mt) →
      es !! next_page_id w = None →
      ∃ w',
        handleUpload md_Convert c w
          = (Gin.mkResponse 200
               (Gin.JSON_url ("/" +:+ next_page_id w +:+ "/")), w')
        ∧ Tree.resolve (Filepath.components (source_path (next_page_id w)))
            (cwd w') = inr (File (Content req) (now w))
        ∧ Tree.resolve (Filepath.components (index_path (next_page_id w)))
            (cwd w') = inr (File (Content req) (now w)).
Proof.
  intros Hb Hne Hmd. split.
  - unfold handleUpload, Gin.ShouldBindJSON, Gin.required, bind, ret.
    rewrite Hb. cbn [with_body Gin.json_body as_html Content Type'].
    pose proof Hne as Hne'. apply String.eqb_neq in Hne' as ->.
    change (("html" =? "")%string) with false.
    destruct (String.eqb (Content req) ""); [reflexivity|].
    cbn [app].
    destruct (generatePageID w) as [[pageID|err] w1]; [|reflexivity].
    by rewrite (createPageFile_as_html md_Convert pageID req Hmd).
  - intros es mt Hc Hrand Hmk Hsrc Hidx Hroot Hfresh.
    assert (rendered md_Convert req = Ok (Content req)) as Hfinal.
    { unfold rendered. by apply String.eqb_neq in Hmd as ->. }
    destruct (upload_into_fresh_root md_Convert c req w es mt (Content req)
                Hb Hc Hne Hfinal Hrand Hmk Hsrc Hidx Hroot Hfresh)
      as (w' & Hrun & Hdir & _).
    exists w'. split; [exact Hrun|].
    pose proof (next_page_id_plain w) as Hid.
    rewrite (components_source_path _ Hid), (components_index_path _ Hid).
    change ["public"; next_page_id w; "source.txt"]
      with (["public"; next_page_id w] ++ ["source.txt"])%list.
    change ["public"; next_page_id w; "index.html"]
      with (["public"; next_page_id w] ++ ["index.html"])%list.
    rewrite !(resolve_app_dir _ _ _ _ _ Hdir).
    split; [by rewrite lookup_insert_ne|by rewrite lookup_insert_eq].
Qed.

Lemma other_type_handled_as_html_witness :
  let c := Example.upload "HTML" "plain words" "" in
  handleUpload Example.Convert c Example.world
    = handleUpload Example.Convert (Example.upload "html" "plain words" "")
        Example.world
  ∧ ∃ w',
      handleUpload Example.Convert c Example.world
        = (Gin.mkResponse 200 (Gin.JSON_url "/0b30557a9fc4e90e/"), w')
      ∧ Tree.resolve ["public"; "0b30557a9fc4e90e"; "source.txt"] (cwd w')
          = inr (File "plain words" 10)
      ∧ Tree.resolve ["public"; "0b30557a9fc4e90e"; "index.html"] (cwd w')
          = inr (File "plain words" 10).
Proof.
  intros c.
  destruct (other_type_handled_as_html Example.Convert c
              (mkUploadRequest "plain words" "HTML" "") Example.world)
    as [Hsame Haccepted]; [reflexivity|discriminate|discriminate|].
  split; [exact Hsame|].
  apply (Haccepted ∅ 5); try reflexivity. discriminate.
Defined.
